(** * shop.cascade.plugin_base: a shallow embedding and its properties

    The module [shop/cascade/plugin_base.py] defines the base classes of
    the shop's CMS plugins.  Python values are embedded as [PyVal],
    dictionaries as [gmap string PyVal], exceptions as [PyExc], and code
    that mutates objects or raises is written in a state-and-exception
    monad [M S], where [S] gathers the objects the function can touch. *)

From Stdlib Require Import ZArith Ascii String List Bool.
From stdpp Require Import gmap strings list fin_maps.

Local Open Scope string_scope.

(** ** Python values *)

(** A Django model class, identified by [_meta.app_label] and [__name__]. *)
Record ModelClass := mkModel {
  app_label : string;
  model_name : string
}.

(** A model instance.  [get_absolute_url] stands for the value the method
    of that name returns on the instance. *)
Record ModelObj := mkObj {
  obj_class : ModelClass;
  pk : Z;
  get_absolute_url : string
}.

(** A form class, as obtained by [import_by_path]; [form_name] is the class
    attribute under which a bound form is published in the context. *)
Record PyFormClass := mkFormClass {
  form_path : string;
  form_name : string
}.

#[warnings="-register-all"]
Inductive PyVal :=
| PyNone
| PyBool (b : bool)
| PyInt (z : Z)
| PyStr (s : string)
| PyDict (d : gmap string PyVal)
| PyModel (o : ModelObj)
| PyRequest
| PyForm (cls : PyFormClass) (kwargs : gmap string PyVal).

(** Truth value testing, [v == 'literal'] against a string literal, and
    [v is None]. *)
Definition truthy (v : PyVal) : bool :=
  match v with
  | PyNone => false
  | PyBool b => b
  | PyInt z => negb (Z.eqb z 0)
  | PyStr s => negb (String.eqb s "")
  | PyDict d => negb (bool_decide (d = ∅))
  | PyModel _ | PyRequest | PyForm _ _ => true
  end.

Definition eq_str (v : PyVal) (lit : string) : bool :=
  match v with
  | PyStr s => String.eqb s lit
  | _ => false
  end.

Definition is_None (v : PyVal) : bool :=
  match v with
  | PyNone => true
  | _ => false
  end.

(** [a or b] returns one of its operands. *)
Definition py_or (a b : PyVal) : PyVal := if truthy a then a else b.

(** ** Exceptions and the monad *)

Inductive PyExc :=
| ImproperlyConfigured (msg : string)
| KeyError (key : string)
| AttributeError (attr : string)
| TypeError (msg : string)
| DoesNotExist (m : ModelClass)
| TemplateDoesNotExist (names : list string)
| ValueError (msg : string)
| OverflowError (msg : string)
| DatabaseError (msg : string).

Inductive Outcome (A : Type) :=
| Return (a : A)
| Raise (e : PyExc).
Arguments Return {A} a.
Arguments Raise {A} e.

(** A computation over the mutable state [S]: it ends by returning a value
    or by raising, and in both cases leaves a state behind. *)
Definition M (S A : Type) : Type := S → Outcome A * S.

Module M.
Definition ret {S A} (a : A) : M S A := λ s, (Return a, s).
Definition bind {S A B} (m : M S A) (k : A → M S B) : M S B :=
  λ s, match m s with
       | (Return a, s') => k a s'
       | (Raise e, s') => (Raise e, s')
       end.
Definition raise {S A} (e : PyExc) : M S A := λ s, (Raise e, s).
Definition gets {S A} (f : S → A) : M S A := λ s, (Return (f s), s).
Definition modify {S} (f : S → S) : M S unit := λ s, (Return tt, f s).
(** [try: body except classes: handler].  The classes of the clause are
    looked at only once the body has raised; [handles] tells whether they
    match the exception, and raises when the clause itself cannot be
    evaluated. *)
Definition try_except {S A} (body : M S A) (handles : PyExc → Outcome bool)
    (handler : M S A) : M S A :=
  λ s, match body s with
       | (Raise e, s') =>
           match handles e with
           | Return true => handler s'
           | Return false => (Raise e, s')
           | Raise e' => (Raise e', s')
           end
       | r => r
       end.
(** Run a computation on the second component of a pair of states. *)
Definition on_snd {S T A} (m : M T A) : M (S * T) A :=
  λ st, let '(r, t) := m (snd st) in (r, (fst st, t)).
End M.

Notation "x <- m ;; k" := (M.bind m (λ x, k))
  (at level 100, m at next level, right associativity, only parsing).
Notation "m ;; k" := (M.bind m (λ _, k))
  (at level 100, right associativity, only parsing).

(** [d[key]] and [d.get(key, default)] on a dictionary. *)
Definition getitem {S} (d : gmap string PyVal) (key : string) : M S PyVal :=
  match d !! key with
  | Some v => M.ret v
  | None => M.raise (KeyError key)
  end.

Definition dict_get (d : gmap string PyVal) (key : string) (default : PyVal) : PyVal :=
  match d !! key with
  | Some v => v
  | None => default
  end.

(** ** Requests and plugin classes *)

(** The request being served, as far as this module looks into it: the
    attribute [_plugin_order] ([None] while absent) and whatever else the
    request carries. *)
Record Request := mkRequest {
  _plugin_order : option Z;
  request_attrs : gmap string PyVal
}.

(** A plugin class: its [__name__], the names of the classes of its
    [__mro__] (itself first), the class attributes [getattr] finds on it,
    its [template_leaf_name] when it declares one, and the methods
    [get_form_class] and [get_form_data] when the class overrides them
    (the classmethod by the value it returns). *)
Record PyClass := mkClass {
  __name__ : string;
  __mro__ : list string;
  class_attrs : gmap string PyVal;
  template_leaf_name : option string;
  own_get_form_class : option PyVal;
  own_get_form_data : option (Request → gmap string PyVal)
}.

Definition issubclass (c base : PyClass) : bool :=
  bool_decide (__name__ base ∈ __mro__ c).

Definition getattr (c : PyClass) (name : string) (default : PyVal) : PyVal :=
  dict_get (class_attrs c) name default.

(** ** Strings *)

(** [s.split(sep)] for a one-character separator. *)
Fixpoint split (sep : ascii) (s : string) : list string :=
  match s with
  | EmptyString => [""]
  | String c rest =>
      if Ascii.eqb c sep then "" :: split sep rest
      else match split sep rest with
           | head :: tail => String c head :: tail
           | [] => [String c ""]
           end
  end.

(** [v.split('.')] on a value: only strings have the method. *)
Definition str_split {S} (v : PyVal) : M S (list string) :=
  match v with
  | PyStr s => M.ret (split "." s)
  | _ => M.raise (AttributeError "split")
  end.

(** [v.get(key)] and [key in v] as the source applies them to the link
    entry of the glossary; [v[key]] on a nested entry. *)
Definition as_dict {S} (v : PyVal) (attr : string) : M S (gmap string PyVal) :=
  match v with
  | PyDict d => M.ret d
  | _ => M.raise (AttributeError attr)
  end.

Definition subscript {S} (v : PyVal) (key : string) : M S PyVal :=
  match v with
  | PyDict d => getitem d key
  | _ => M.raise (TypeError "__getitem__")
  end.

Definition contains (d : gmap string PyVal) (key : string) : bool :=
  bool_decide (is_Some (d !! key)).

(** ** The model registry and the database *)

Global Instance ModelClass_eq_dec : EqDecision ModelClass.
Proof. solve_decision. Defined.

(** What makes a query fail other than a missing row: a primary-key value
    that the ORM cannot convert ([ValueError], or [TypeError] for a value
    of the wrong kind), one that the database cannot hold
    ([OverflowError]), or a failure of the database itself
    ([DatabaseError]). *)
Inductive Rejection :=
| BadValue (msg : string)
| BadType (msg : string)
| OutOfRange (msg : string)
| Unavailable (msg : string).

Definition rejection (r : Rejection) : PyExc :=
  match r with
  | BadValue msg => ValueError msg
  | BadType msg => TypeError msg
  | OutOfRange msg => OverflowError msg
  | Unavailable msg => DatabaseError msg
  end.

(** What the functions of this module see of Django's ORM: the models of
    the installed applications by application label and model name, the
    rows of each model by primary-key value, the log of the [objects.get]
    queries issued, the models loaded from any application, installed or
    not, and the queries that fail, none of which finds a row. *)
Record Database := mkDb {
  installed_models : string → string → option ModelClass;
  rows : ModelClass → PyVal → option ModelObj;
  queries : list (ModelClass * PyVal);
  loaded_models : string → string → option ModelClass;
  rejected : ModelClass → PyVal → option Rejection
}.

(** [get_model(app_label, model_name, seed_cache=True, only_installed=True)]
    on positional arguments, all of them strings here, with the model
    cache filled as it is once the project runs: a third argument changes
    nothing, an empty fourth one lifts the restriction to installed
    applications.  [None] stands for a wrong number of arguments. *)
Definition find_model (db : Database) (args : list string) : option (option ModelClass) :=
  match args with
  | [label; name] | [label; name; _] => Some (installed_models db label name)
  | [label; name; _; only_installed] =>
      Some (if String.eqb only_installed "" then loaded_models db label name
            else installed_models db label name)
  | _ => None
  end.

(** [get_model] on the unpacked argument list: the model class, [None]
    when there is no such model, and a [TypeError] when the arguments do
    not fit the signature. *)
Definition get_model {S} (db : Database) (args : list string) : M S (option ModelClass) :=
  match find_model db args with
  | Some Model => M.ret Model
  | None => M.raise (TypeError "get_model")
  end.

(** [Model.objects]: [None] has no such attribute. *)
Definition objects {S} (Model : option ModelClass) : M S ModelClass :=
  match Model with
  | Some m => M.ret m
  | None => M.raise (AttributeError "objects")
  end.

(** The database after one more [objects.get] query. *)
Definition logged (m : ModelClass) (v : PyVal) (db : Database) : Database :=
  mkDb (installed_models db) (rows db) (queries db ++ [(m, v)])%list
    (loaded_models db) (rejected db).

(** [Model.objects.get(pk=v)] against the database: the call is logged,
    and the row is returned, or the query fails with its exception, or
    [Model.DoesNotExist] is raised. *)
Definition objects_get (m : ModelClass) (v : PyVal) : M Database ModelObj :=
  λ db,
    let db' := logged m v db in
    match rows db m v with
    | Some o => (Return o, db')
    | None =>
        match rejected db m v with
        | Some r => (Raise (rejection r), db')
        | None => (Raise (DoesNotExist m), db')
        end
    end.

(** ** Plugin instances *)

(** A plugin model instance [obj]: its [id], its [glossary], and the
    attribute [_link_model], which [get_link] adds to the instance:
    [None] while the attribute is absent, [Some None] for the value [None],
    [Some (Some o)] for a model object. *)
Record Plugin := mkPlugin {
  id : Z;
  glossary : gmap string PyVal;
  _link_model : option (option ModelObj)
}.

Definition set_link_model (v : option ModelObj) (obj : Plugin) : Plugin :=
  mkPlugin (id obj) (glossary obj) (Some v).

(** [except Model.DoesNotExist]: [None] has no such attribute. *)
Definition handles_DoesNotExist (Model : option ModelClass) (e : PyExc) : Outcome bool :=
  match Model with
  | Some m =>
      Return match e with
             | DoesNotExist m' => bool_decide (m' = m)
             | _ => false
             end
  | None => Raise (AttributeError "DoesNotExist")
  end.

(** The model class that the [model] entry of a link names, if [get_model]
    finds one for it. *)
Definition referenced_model (db : Database) (link : gmap string PyVal) : option ModelClass :=
  match link !! "model" with
  | Some (PyStr s) =>
      match find_model db (split "." s) with
      | Some (Some Model) => Some Model
      | _ => None
      end
  | _ => None
  end.

Module ShopLinkPluginBase.

Definition get_link : M (Plugin * Database) PyVal :=
  obj <- M.gets fst ;;
  link <- as_dict (dict_get (glossary obj) "link" (PyDict ∅)) "get" ;;
  if eq_str (dict_get link "type" PyNone) "cmspage" then
    if contains link "model" && contains link "pk" then
      (if negb (bool_decide (is_Some (_link_model obj))) then
         model <- getitem link "model" ;;
         args <- str_split model ;;
         db <- M.gets snd ;;
         Model <- get_model db args ;;
         M.try_except
           (manager <- objects Model ;;
            pk <- getitem link "pk" ;;
            o <- M.on_snd (objects_get manager pk) ;;
            M.modify (λ st, (set_link_model (Some o) (fst st), snd st)))
           (handles_DoesNotExist Model)
           (M.modify (λ st, (set_link_model None (fst st), snd st)))
       else M.ret tt) ;;
      obj <- M.gets fst ;;
      (* a model instance is true *)
      match _link_model obj with
      | Some (Some o) => M.ret (PyStr (get_absolute_url o))
      | Some None => M.ret PyNone
      | None => M.raise (AttributeError "_link_model")
      end
    else M.ret PyNone
  else
    (* use the link type as special action keyword *)
    M.ret (dict_get link "type" PyNone).

Definition is_cmspage (link : gmap string PyVal) : bool :=
  eq_str (dict_get link "type" PyNone) "cmspage".

(** Link resolution looked at without the attribute [_link_model]: a
    page link that references an existing object yields its URL, any
    other link type yields the type. *)
Definition resolves_by_type (obj : Plugin) (db : Database) : Prop :=
  ∀ link, dict_get (glossary obj) "link" (PyDict ∅) = PyDict link →
    (∀ Model v o,
       is_cmspage link = true →
       referenced_model db link = Some Model →
       link !! "pk" = Some v →
       rows db Model v = Some o →
       fst (get_link (obj, db)) = Return (PyStr (get_absolute_url o)))
    ∧ (is_cmspage link = false →
       fst (get_link (obj, db)) = Return (dict_get link "type" PyNone)).

(** A page link that lacks a key, or whose object is not in the
    database, yields [None]. *)
Definition none_when_dangling (obj : Plugin) (db : Database) : Prop :=
  ∀ link, dict_get (glossary obj) "link" (PyDict ∅) = PyDict link →
    is_cmspage link = true →
    (link !! "model" = None ∨ link !! "pk" = None
     ∨ ∃ Model v, referenced_model db link = Some Model
                  ∧ link !! "pk" = Some v ∧ rows db Model v = None) →
    fst (get_link (obj, db)) = Return PyNone.


End ShopLinkPluginBase.

Module ShopButtonPluginBase.

Section identifier.
(** [django.utils.safestring.mark_safe] *)
Variable mark_safe : PyVal → PyVal.

Definition get_identifier : M Plugin PyVal :=
  obj <- M.gets (λ obj, obj) ;;
  M.ret (mark_safe (dict_get (glossary obj) "link_content" (PyStr ""))).
End identifier.

End ShopButtonPluginBase.

Module CatalogLinkForm.

(** [product.pk] *)
Definition attr_pk {S} (product : PyVal) : M S PyVal :=
  match product with
  | PyModel o => M.ret (PyInt (pk o))
  | _ => M.raise (AttributeError "pk")
  end.

(** The state is [self.cleaned_data]; [ProductModel] is the class
    attribute that [get_form_class] attaches to the form class. *)
Definition clean_product (ProductModel : ModelClass) : M (gmap string PyVal) PyVal :=
  cleaned_data <- M.gets (λ d, d) ;;
  if eq_str (dict_get cleaned_data "link_type" PyNone) "product" then
    let label := app_label ProductModel in
    let model := label ++ "." ++ model_name ProductModel in
    product <- getitem cleaned_data "product" ;;
    (* [product and product.pk]: the attribute is read for a true product only *)
    conj <- (if truthy product then attr_pk product else M.ret product) ;;
    let link_data : gmap string PyVal :=
      <["type" := PyStr "product"]>
        (<["model" := PyStr model]> (<["pk" := py_or conj PyNone]> ∅)) in
    M.modify (λ d, <["link_data" := PyDict link_data]> d) ;;
    M.ret PyNone
  else M.ret PyNone.

(** The link data that [clean_product] stores, by the value of its [pk]. *)
Definition link_data_with (ProductModel : ModelClass) (pk : PyVal) : gmap string PyVal :=
  <["type" := PyStr "product"]>
    (<["model" := PyStr (app_label ProductModel ++ "." ++ model_name ProductModel)]>
       (<["pk" := pk]> ∅)).

(** [except (KeyError, ObjectDoesNotExist)] *)
Definition handles_KeyError_ObjectDoesNotExist (e : PyExc) : Outcome bool :=
  Return match e with
         | KeyError _ | DoesNotExist _ => true
         | _ => false
         end.

(** The state is the [initial] dictionary together with the database. *)
Definition set_initial_product : M (gmap string PyVal * Database) unit :=
  M.try_except
    (initial <- M.gets fst ;;
     link <- getitem initial "link" ;;
     model <- subscript link "model" ;;
     args <- str_split model ;;
     db <- M.gets snd ;;
     Model <- get_model db args ;;
     manager <- objects Model ;;
     link <- getitem initial "link" ;;
     pk <- subscript link "pk" ;;
     o <- M.on_snd (objects_get manager pk) ;;
     M.modify (λ st, (<["product" := PyModel o]> (fst st), snd st)))
    handles_KeyError_ObjectDoesNotExist
    (M.ret tt).

(** [set_initial_product] looked at without the model registry: it enters
    the product when the keys are there and the object exists, and passes
    in silence when a key or the object is missing. *)
Definition enters_product_or_passes (initial : gmap string PyVal) (db : Database) : Prop :=
  (∀ link Model v o,
     initial !! "link" = Some (PyDict link) →
     referenced_model db link = Some Model →
     link !! "pk" = Some v →
     rows db Model v = Some o →
     set_initial_product (initial, db)
     = (Return tt, (<["product" := PyModel o]> initial, logged Model v db)))
  ∧ (initial !! "link" = None
     ∨ (∃ link, initial !! "link" = Some (PyDict link)
                ∧ (link !! "model" = None ∨ link !! "pk" = None
                   ∨ ∃ Model v, referenced_model db link = Some Model
                                ∧ link !! "pk" = Some v ∧ rows db Model v = None)) →
     fst (set_initial_product (initial, db)) = Return tt
     ∧ fst (snd (set_initial_product (initial, db))) = initial).

End CatalogLinkForm.

Module DialogFormPluginBase.

Definition name : string := "DialogFormPluginBase".

(** [DialogFormPluginBase.get_form_class], the classmethod as defined on
    the base class. *)
Definition get_form_class (cls : PyClass) : PyVal :=
  getattr cls "form_class" PyNone.

(** [plugin.get_form_class()]: the class's own classmethod when it has
    one, the inherited one when [DialogFormPluginBase] is among its
    bases, and no such attribute otherwise. *)
Definition call_get_form_class {S} (plugin : PyClass) : M S PyVal :=
  match own_get_form_class plugin with
  | Some v => M.ret v
  | None =>
      if bool_decide (name ∈ __mro__ plugin)
      then M.ret (get_form_class plugin)
      else M.raise (AttributeError "get_form_class")
  end.

(** What [plugin.get_form_class()] returns on a class that inherits from
    [DialogFormPluginBase]. *)
Definition plugin_form_class (plugin : PyClass) : PyVal :=
  match own_get_form_class plugin with
  | Some v => v
  | None => get_form_class plugin
  end.

Definition msg_not_subclass (plugin cls : string) : string :=
  "Can not register plugin class `" ++ plugin
    ++ "`, since is does not inherit from `" ++ cls ++ "`.".

Definition msg_no_form_class (plugin : string) : string :=
  "Can not register plugin class `" ++ plugin
    ++ "`, since is does not define a `form_class`.".

(** The CMS plugin pool, seen from this module: the classes handed to
    [plugin_pool.register_plugin], oldest first. *)
Definition plugin_pool_register_plugin (plugin : PyClass) : M (list PyClass) unit :=
  M.modify (λ pool, (pool ++ [plugin])%list).

Definition register_plugin (cls plugin : PyClass) : M (list PyClass) unit :=
  if negb (issubclass plugin cls) then
    M.raise (ImproperlyConfigured (msg_not_subclass (__name__ plugin) (__name__ cls)))
  else
    form_class <- call_get_form_class plugin ;;
    if is_None form_class then
      M.raise (ImproperlyConfigured (msg_no_form_class (__name__ plugin)))
    else
      plugin_pool_register_plugin plugin.

(** [import_by_path(dotted_path)] against the importable form classes
    [modules]: it raises [ImproperlyConfigured] when the path cannot be
    imported, and only a string can be taken apart as a path. *)
Definition import_by_path {S} (modules : gmap string PyFormClass)
    (dotted_path : PyVal) : M S PyFormClass :=
  match dotted_path with
  | PyStr path =>
      match modules !! path with
      | Some form => M.ret form
      | None => M.raise (ImproperlyConfigured path)
      end
  | _ => M.raise (AttributeError "rsplit")
  end.

(** An instance [self] of a plugin class. *)
Record Self := mkSelf {
  __class__ : PyClass;
  FormClass : PyFormClass
}.

Definition __init__ {S} (modules : gmap string PyFormClass) (cls : PyClass) : M S Self :=
  dotted_path <- call_get_form_class cls ;;
  form <- import_by_path modules dotted_path ;;
  M.ret (mkSelf cls form).

(** [DialogFormPluginBase.get_form_data], and [self.get_form_data(request)]
    with the method of the instance's class. *)
Definition get_form_data (request : Request) : gmap string PyVal := ∅.

Definition call_get_form_data (self : Self) (request : Request) : gmap string PyVal :=
  match own_get_form_data (__class__ self) with
  | Some method => method request
  | None => get_form_data request
  end.

(** A loaded template: the name it was found under and its source. *)
Record Template := mkTemplate {
  template_name : string;
  template_source : string
}.

(** [django.template.loader.select_template] over the templates the
    loaders can find: the first name that loads wins. *)
Fixpoint select_from (templates : gmap string string) (names : list string)
    : option Template :=
  match names with
  | [] => None
  | name :: rest =>
      match templates !! name with
      | Some source => Some (mkTemplate name source)
      | None => select_from templates rest
      end
  end.

Definition select_template {S} (templates : gmap string string)
    (template_names : list string) : M S Template :=
  match select_from templates template_names with
  | Some t => M.ret t
  | None => M.raise (TemplateDoesNotExist template_names)
  end.

(** [self.template_leaf_name] *)
Definition attr_template_leaf_name {S} (self : Self) : M S string :=
  match template_leaf_name (__class__ self) with
  | Some leaf => M.ret leaf
  | None => M.raise (AttributeError "template_leaf_name")
  end.

(** What [render] works on: the request object, which the context
    refers to as [PyRequest], and the template context. *)
Record RenderState := mkRender {
  request : Request;
  context : gmap string PyVal
}.

Definition set_plugin_order (order : Z) (st : RenderState) : RenderState :=
  mkRender (mkRequest (Some order) (request_attrs (request st))) (context st).

Definition set_context (ctx : gmap string PyVal) (st : RenderState) : RenderState :=
  mkRender (request st) ctx.

(** Attribute access on [context['request']]: the request of the state
    when the entry is the request object; nothing else in a context takes
    the attribute [_plugin_order]. *)
Definition the_request (v : PyVal) : M RenderState Request :=
  match v with
  | PyRequest => M.gets request
  | _ => M.raise (AttributeError "_plugin_order")
  end.

Section rendering.
(** [shop_settings.APP_LABEL] and the templates on the search path. *)
Variable APP_LABEL : string.
Variable templates : gmap string string.

(** [CascadePluginBase.render], which the method ends with: it
    completes the context it is given and returns it. *)
Variable super_render : gmap string PyVal → Plugin → PyVal → gmap string PyVal.

Definition template_names (leaf : string) : list string :=
  [ APP_LABEL ++ "/checkout/" ++ leaf;
    "shop/checkout/" ++ leaf ].

Definition get_render_template {S} (self : Self) : M S Template :=
  leaf <- attr_template_leaf_name self ;;
  select_template templates (template_names leaf).

Definition render (self : Self) (instance : Plugin) (placeholder : PyVal)
    : M RenderState (gmap string PyVal) :=
  ctx <- M.gets context ;;
  request_ref <- getitem ctx "request" ;;
  request <- the_request request_ref ;;
  let form_data := call_get_form_data self request in
  let order := (default 0 (_plugin_order request) + 1)%Z in
  M.modify (set_plugin_order order) ;;
  let form_data :=
    match form_data !! "initial" with
    | Some (PyDict _) => form_data
    | _ => <["initial" := PyDict ∅]> form_data
    end in
  initial <- as_dict (dict_get form_data "initial" PyNone) "update" ;;
  let initial :=
    <["plugin_order" := PyInt order]> (<["plugin_id" := PyInt (id instance)]> initial) in
  let form_data := <["initial" := PyDict initial]> form_data in
  let bound_form := PyForm (FormClass self) form_data in
  M.modify (λ st, set_context (<[form_name (FormClass self) := bound_form]> (context st)) st) ;;
  ctx <- M.gets context ;;
  let ctx := super_render ctx instance placeholder in
  M.modify (set_context ctx) ;;
  M.ret ctx.
End rendering.

(** The initial data that [get_form_data] supplies, the initial data the
    form is given once [render] has entered the plugin's id and order, the
    keyword arguments the form class is then called with, and the order
    the request hands out next. *)
Definition supplied_initial (form_data : gmap string PyVal) : gmap string PyVal :=
  match form_data !! "initial" with
  | Some (PyDict d) => d
  | _ => ∅
  end.

Definition form_initial (form_data : gmap string PyVal) (plugin_id order : Z)
    : gmap string PyVal :=
  <["plugin_order" := PyInt order]>
    (<["plugin_id" := PyInt plugin_id]> (supplied_initial form_data)).

Definition form_kwargs (form_data : gmap string PyVal) (plugin_id order : Z)
    : gmap string PyVal :=
  <["initial" := PyDict (form_initial form_data plugin_id order)]> form_data.

Definition next_order (request : Request) : Z :=
  (default 0 (_plugin_order request) + 1)%Z.

End DialogFormPluginBase.

(** ** Sample data

    A small installation on which the properties below are exercised: a
    CMS page model with one page, a product model, and a few plugin
    classes. *)
Module Sample.

Definition Base : PyClass :=
  mkClass DialogFormPluginBase.name
    [DialogFormPluginBase.name; "ShopPluginBase"; "CascadePluginBase"]
    ∅ None None None.

Definition CustomerForm : PyFormClass :=
  mkFormClass "shop.forms.checkout.CustomerForm" "customer_form".

Definition CustomerFormPlugin : PyClass :=
  mkClass "CustomerFormPlugin"
    ["CustomerFormPlugin"; DialogFormPluginBase.name; "ShopPluginBase"; "CascadePluginBase"]
    {[ "form_class" := PyStr "shop.forms.checkout.CustomerForm" ]}
    (Some "customer.html") None None.

Definition CartPlugin : PyClass :=
  mkClass "ShopCartPlugin" ["ShopCartPlugin"; "ShopPluginBase"; "CascadePluginBase"]
    ∅ None None None.

Definition Page : ModelClass := mkModel "cms" "Page".
Definition home : ModelObj := mkObj Page 1 "/home/".

Definition installed (label name : string) : option ModelClass :=
  if String.eqb label "cms" && String.eqb name "Page" then Some Page else None.

(** The database before and after the home page is created. *)
Definition db_empty : Database :=
  mkDb installed (λ _ _, None) [] installed (λ _ _, None).
Definition db_home : Database :=
  mkDb installed
    (λ m v, match v with
            | PyInt 1 => if bool_decide (m = Page) then Some home else None
            | _ => None
            end) [] installed (λ _ _, None).

Definition page_link : gmap string PyVal :=
  {[ "type" := PyStr "cmspage"; "model" := PyStr "cms.Page"; "pk" := PyInt 1 ]}.

(** A button linking to the home page, and one that reloads the page. *)
Definition button : Plugin :=
  mkPlugin 7 {[ "link" := PyDict page_link; "link_content" := PyStr "Home" ]} None.
Definition reload_button : Plugin :=
  mkPlugin 8 {[ "link" := PyDict {[ "type" := PyStr "RELOAD_PAGE" ]} ]} None.

(** The button after [get_link] ran on it while the page was missing,
    and after it ran while the page was there. *)
Definition button_seen_missing : Plugin :=
  fst (snd (ShopLinkPluginBase.get_link (button, db_empty))).
Definition button_seen_home : Plugin :=
  fst (snd (ShopLinkPluginBase.get_link (button, db_home))).

(** The initial data of a link form whose link names a product of a shop
    application that is not installed, and gives no primary key. *)
Definition initial_unknown_model : gmap string PyVal :=
  {[ "link" := PyDict {[ "type" := PyStr "product"; "model" := PyStr "myshop.Product" ]} ]}.

(** The product model of a shop, a product whose primary key is 0, and the
    cleaned data of a link form on which that product was selected. *)
Definition Product : ModelClass := mkModel "myshop" "Product".
Definition product_zero : ModelObj := mkObj Product 0 "/products/first/".
Definition product_five : ModelObj := mkObj Product 5 "/products/fifth/".

Definition cleaned_zero : gmap string PyVal :=
  {[ "link_type" := PyStr "product"; "product" := PyModel product_zero ]}.
Definition cleaned_five : gmap string PyVal :=
  {[ "link_type" := PyStr "product"; "product" := PyModel product_five ]}.

(** Checkout templates: the shop ships the customer form, the project
    [myshop] overrides nothing. *)
Definition shipped_templates : gmap string string :=
  {[ "shop/checkout/customer.html" := "<form>...</form>" ]}.

Definition customer_plugin : DialogFormPluginBase.Self :=
  DialogFormPluginBase.mkSelf CustomerFormPlugin CustomerForm.

(** A request on which two plugins were rendered already, the template
    context of a checkout page, and the instance of the customer form
    plugin on that page. *)
Definition request_two : Request := mkRequest (Some 2%Z) ∅.
Definition checkout_context : gmap string PyVal :=
  {[ "request" := PyRequest; "title" := PyStr "Checkout" ]}.
Definition checkout : DialogFormPluginBase.RenderState :=
  DialogFormPluginBase.mkRender request_two checkout_context.
Definition customer_instance : Plugin := mkPlugin 42 ∅ None.

(** The render method of the base class, which enters the id of the
    instance and the placeholder into the context. *)
Definition base_render (ctx : gmap string PyVal) (instance : Plugin) (placeholder : PyVal)
    : gmap string PyVal :=
  <["placeholder" := placeholder]> (<["instance" := PyInt (id instance)]> ctx).

Definition form_modules : gmap string PyFormClass :=
  {[ "shop.forms.checkout.CustomerForm" := CustomerForm ]}.

Definition initial_home : gmap string PyVal :=
  {[ "link" := PyDict page_link ]}.

End Sample.

(** ** Model labels and a sample shop *)

(** A string without a dot, as application labels and model names are. *)
Fixpoint dotless (s : string) : bool :=
  match s with
  | EmptyString => true
  | String c rest => negb (Ascii.eqb c ".") && dotless rest
  end.

(** A shop whose product model is installed next to the CMS pages, with
    the fifth product in the catalogue; a plugin whose stored link is not
    a dictionary; and the plugins of a checkout page in rendering order. *)
Module SampleShop.

Definition installed (label name : string) : option ModelClass :=
  if String.eqb label "myshop" && String.eqb name "Product" then Some Sample.Product
  else Sample.installed label name.

Definition db : Database :=
  mkDb installed
    (λ m v, match v with
            | PyInt 5 => if bool_decide (m = Sample.Product) then Some Sample.product_five
                         else None
            | _ => None
            end) [] installed (λ _ _, None).

(** The database of the home page, telling which primary-key values the
    page model turns down, and a button whose link carries such a value. *)
Definition db_pages : Database :=
  mkDb Sample.installed (rows Sample.db_home) [] Sample.installed
    (λ _ v, match v with
            | PyStr "abc" => Some (BadValue "invalid literal for int() with base 10: 'abc'")
            | _ => None
            end).

Definition unconvertible_link : gmap string PyVal :=
  {[ "type" := PyStr "cmspage"; "model" := PyStr "cms.Page"; "pk" := PyStr "abc" ]}.

Definition unconvertible_button : Plugin :=
  mkPlugin 10 {[ "link" := PyDict unconvertible_link ]} None.

Definition broken_link : Plugin :=
  mkPlugin 9 {[ "link" := PyStr "cms.Page/1" ]} None.

Definition ShippingForm : PyFormClass :=
  mkFormClass "shop.forms.checkout.ShippingForm" "shipping_form".

Definition ShippingFormPlugin : PyClass :=
  mkClass "ShippingFormPlugin"
    ["ShippingFormPlugin"; DialogFormPluginBase.name; "ShopPluginBase"; "CascadePluginBase"]
    {[ "form_class" := PyStr "shop.forms.checkout.ShippingForm" ]}
    (Some "shipping.html") None None.

Definition shipping_plugin : DialogFormPluginBase.Self :=
  DialogFormPluginBase.mkSelf ShippingFormPlugin ShippingForm.

Definition checkout_plugins : list (DialogFormPluginBase.Self * Plugin * PyVal) :=
  [ (Sample.customer_plugin, Sample.customer_instance, PyStr "checkout");
    (shipping_plugin, mkPlugin 43 ∅ None, PyStr "checkout") ].

Definition anonymous : DialogFormPluginBase.RenderState :=
  DialogFormPluginBase.mkRender (mkRequest None ∅) {[ "request" := PyRequest ]}.

Definition no_request : DialogFormPluginBase.RenderState :=
  DialogFormPluginBase.mkRender (mkRequest None ∅) {[ "title" := PyStr "Checkout" ]}.

End SampleShop.

(** * Properties *)

Ltac run :=
  unfold M.bind, M.ret, M.raise, M.gets, M.modify, M.try_except, M.on_snd; simpl.

(** The same with the primitive operations opened up, and a case analysis
    that follows every branch of the resulting term. *)
Ltac run_all :=
  unfold subscript;
  unfold as_dict, getitem, str_split, get_model, objects, objects_get;
  unfold rejection;
  run.

Ltac by_cases :=
  repeat (case_match; simpl in *; simplify_eq);
  simpl in *; simplify_eq;
  repeat match goal with
         | H : bool_decide (?x = ?x) = false |- _ => by apply bool_decide_eq_false_1 in H
         end;
  try done.

(** ** The embedding at work *)

Example split_model_label : split "." "cms.Page" = ["cms"; "Page"].
Proof. reflexivity. Qed.

Example split_keeps_empty_fields : split "." "a..b." = ["a"; ""; "b"; ""].
Proof. reflexivity. Qed.

Example get_link_page :
  ShopLinkPluginBase.get_link (Sample.button, Sample.db_home)
  = (Return (PyStr "/home/"),
     (set_link_model (Some Sample.home) Sample.button,
      logged Sample.Page (PyInt 1) Sample.db_home)).
Proof. reflexivity. Qed.

Example button_seen_missing_keeps_None :
  Sample.button_seen_missing = set_link_model None Sample.button.
Proof. reflexivity. Qed.

Example button_seen_home_keeps_page :
  Sample.button_seen_home = set_link_model (Some Sample.home) Sample.button.
Proof. reflexivity. Qed.

Example get_link_reload :
  fst (ShopLinkPluginBase.get_link (Sample.reload_button, Sample.db_home))
  = Return (PyStr "RELOAD_PAGE").
Proof. reflexivity. Qed.

Example get_link_no_link :
  fst (ShopLinkPluginBase.get_link (Sample.customer_instance, Sample.db_home))
  = Return PyNone.
Proof. reflexivity. Qed.

Example register_base_class :
  DialogFormPluginBase.register_plugin Sample.Base Sample.Base []
  = (Raise (ImproperlyConfigured
      "Can not register plugin class `DialogFormPluginBase`, since is does not define a `form_class`."),
     []).
Proof. reflexivity. Qed.

Example set_initial_product_unknown_model_raises :
  CatalogLinkForm.set_initial_product (Sample.initial_unknown_model, Sample.db_home)
  = (Raise (AttributeError "objects"), (Sample.initial_unknown_model, Sample.db_home)).
Proof. reflexivity. Qed.

Example get_model_third_argument :
  referenced_model Sample.db_home {[ "model" := PyStr "cms.Page.x" ]} = Some Sample.Page.
Proof. reflexivity. Qed.

Example get_model_five_arguments :
  get_model Sample.db_home (split "." "cms.Page.x.y.z") tt = (Raise (TypeError "get_model"), tt).
Proof. reflexivity. Qed.

Example get_link_unconvertible_pk :
  ShopLinkPluginBase.get_link (SampleShop.unconvertible_button, SampleShop.db_pages)
  = (Raise (ValueError "invalid literal for int() with base 10: 'abc'"),
     (SampleShop.unconvertible_button,
      logged Sample.Page (PyStr "abc") SampleShop.db_pages)).
Proof. reflexivity. Qed.

(** ** Registration of dialog form plugins *)

Lemma issubclass_DialogFormPluginBase (cls plugin : PyClass) :
  __name__ cls = DialogFormPluginBase.name →
  issubclass plugin cls = bool_decide (DialogFormPluginBase.name ∈ __mro__ plugin).
Proof. intros Hname. unfold issubclass. by rewrite Hname. Qed.

Lemma call_get_form_class_inherits {S} (plugin : PyClass) (s : S) :
  DialogFormPluginBase.name ∈ __mro__ plugin →
  DialogFormPluginBase.call_get_form_class plugin s
  = (Return (DialogFormPluginBase.plugin_form_class plugin), s).
Proof.
  intros Hsub.
  unfold DialogFormPluginBase.call_get_form_class, DialogFormPluginBase.plugin_form_class.
  destruct (own_get_form_class plugin); [done |]. by rewrite bool_decide_eq_true_2.
Qed.

Lemma call_get_form_class_subclass {S} (cls plugin : PyClass) (s : S) :
  __name__ cls = DialogFormPluginBase.name →
  issubclass plugin cls = true →
  DialogFormPluginBase.call_get_form_class plugin s
  = (Return (DialogFormPluginBase.plugin_form_class plugin), s).
Proof.
  intros Hname Hsub. rewrite (issubclass_DialogFormPluginBase _ _ Hname) in Hsub.
  apply call_get_form_class_inherits. by apply bool_decide_eq_true_1 in Hsub.
Qed.

Lemma is_None_spec (v : PyVal) : is_None v = true ↔ v = PyNone.
Proof. destruct v; simpl; split; congruence. Qed.

Lemma app_singleton_neq {A} (l : list A) (x : A) : (l ++ [x])%list ≠ l.
Proof.
  intros Heq. apply (f_equal List.length) in Heq.
  rewrite length_app in Heq. simpl in Heq. lia.
Qed.

Section register_plugin.
Import DialogFormPluginBase.

Variables (cls P : PyClass) (pool : list PyClass).
Hypothesis Hname : __name__ cls = name.

Lemma register_plugin_not_subclass :
  issubclass P cls = false →
  register_plugin cls P pool
  = (Raise (ImproperlyConfigured (msg_not_subclass (__name__ P) (__name__ cls))), pool).
Proof. intros Hsub. unfold register_plugin. by rewrite Hsub. Qed.

Hypothesis Hsub : issubclass P cls = true.

Lemma register_plugin_no_form_class :
  plugin_form_class P = PyNone →
  register_plugin cls P pool
  = (Raise (ImproperlyConfigured (msg_no_form_class (__name__ P))), pool).
Proof.
  intros Hnone. unfold register_plugin. rewrite Hsub. simpl. unfold M.bind.
  rewrite (call_get_form_class_subclass cls P pool Hname Hsub). by rewrite Hnone.
Qed.

Lemma register_plugin_accepted :
  plugin_form_class P ≠ PyNone →
  register_plugin cls P pool = (Return tt, (pool ++ [P])%list).
Proof.
  intros Hform. unfold register_plugin. rewrite Hsub. simpl. unfold M.bind.
  rewrite (call_get_form_class_subclass cls P pool Hname Hsub).
  destruct (is_None (plugin_form_class P)) eqn:Hnone; [| reflexivity].
  by apply is_None_spec in Hnone.
Qed.
End register_plugin.

(** C1.  [DialogFormPluginBase.register_plugin(P)] hands [P] to the plugin
    pool exactly when [P] is a subclass of [DialogFormPluginBase] and
    [P.get_form_class()] is not [None]; in every other case it raises
    [ImproperlyConfigured] and leaves the pool as it was, and a class that
    is not a subclass is rejected for that reason whatever its form class. *)
Theorem register_plugin_iff (cls P : PyClass) (pool : list PyClass) :
  __name__ cls = DialogFormPluginBase.name →
  let accepted :=
    issubclass P cls = true ∧ DialogFormPluginBase.plugin_form_class P ≠ PyNone in
  (DialogFormPluginBase.register_plugin cls P pool = (Return tt, (pool ++ [P])%list)
     ↔ accepted)
  ∧ (snd (DialogFormPluginBase.register_plugin cls P pool) = (pool ++ [P])%list
     ↔ accepted)
  ∧ (¬ accepted →
     ∃ msg, DialogFormPluginBase.register_plugin cls P pool
            = (Raise (ImproperlyConfigured msg), pool))
  ∧ (issubclass P cls = false →
     DialogFormPluginBase.register_plugin cls P pool
     = (Raise (ImproperlyConfigured
                 (DialogFormPluginBase.msg_not_subclass (__name__ P) (__name__ cls))),
        pool)).
Proof.
  intros Hname accepted. subst accepted.
  pose proof (app_singleton_neq pool P) as Hgrows.
  destruct (issubclass P cls) eqn:Hsub.
  - destruct (is_None (DialogFormPluginBase.plugin_form_class P)) eqn:Hnone.
    + apply is_None_spec in Hnone.
      rewrite (register_plugin_no_form_class cls P pool Hname Hsub Hnone). simpl.
      repeat split; try discriminate; try (by intros [_ Hform]); try done.
      intros _. eauto.
    + assert (Hform : DialogFormPluginBase.plugin_form_class P ≠ PyNone).
      { intros Hform. apply is_None_spec in Hform. congruence. }
      rewrite (register_plugin_accepted cls P pool Hname Hsub Hform). simpl.
      repeat split; try done. intros Hrejected. by destruct Hrejected.
  - rewrite (register_plugin_not_subclass cls P pool Hsub). simpl.
    repeat split; try discriminate; try (by intros [? _]); try done.
    intros _. eauto.
Qed.

Lemma register_plugin_iff_witness :
  DialogFormPluginBase.register_plugin Sample.Base Sample.CustomerFormPlugin []
  = (Return tt, [Sample.CustomerFormPlugin])
  ∧ DialogFormPluginBase.register_plugin Sample.Base Sample.CartPlugin [Sample.CustomerFormPlugin]
    = (Raise (ImproperlyConfigured
        "Can not register plugin class `ShopCartPlugin`, since is does not inherit from `DialogFormPluginBase`."),
       [Sample.CustomerFormPlugin]).
Proof.
  split.
  - apply (register_plugin_iff Sample.Base Sample.CustomerFormPlugin [] eq_refl).
    split; [reflexivity | discriminate].
  - apply (register_plugin_iff Sample.Base Sample.CartPlugin _ eq_refl). reflexivity.
Defined.

(** ** Link resolution *)

Section get_link.
Import ShopLinkPluginBase.

Variables (obj : Plugin) (db : Database) (link : gmap string PyVal).
Hypothesis Hlink : dict_get (glossary obj) "link" (PyDict ∅) = PyDict link.

Lemma get_link_keyword :
  eq_str (dict_get link "type" PyNone) "cmspage" = false →
  get_link (obj, db) = (Return (dict_get link "type" PyNone), (obj, db)).
Proof. intros Htype. unfold get_link. run. rewrite Hlink. simpl. by rewrite Htype. Qed.

Hypothesis Hcmspage : eq_str (dict_get link "type" PyNone) "cmspage" = true.

Lemma get_link_incomplete :
  contains link "model" && contains link "pk" = false →
  get_link (obj, db) = (Return PyNone, (obj, db)).
Proof.
  intros Hkeys. unfold get_link. run. rewrite Hlink. simpl.
  by rewrite Hcmspage, Hkeys.
Qed.

Hypothesis Hkeys : contains link "model" && contains link "pk" = true.

Lemma get_link_cached (cached : option ModelObj) :
  _link_model obj = Some cached →
  get_link (obj, db)
  = (Return (from_option (λ o, PyStr (get_absolute_url o)) PyNone cached), (obj, db)).
Proof.
  intros Hcache. unfold get_link. run. rewrite Hlink. simpl.
  rewrite Hcmspage, Hkeys, Hcache. simpl. rewrite Hcache. by destruct cached.
Qed.

Hypothesis Hfresh : _link_model obj = None.


Variables (Model : ModelClass) (v : PyVal).
Hypothesis Hmodel : referenced_model db link = Some Model.
Hypothesis Hpk : link !! "pk" = Some v.

(** With the model found, [get_link] gets as far as the query. *)
Lemma get_link_queries :
  get_link (obj, db)
  = match objects_get Model v db with
    | (Return o, db') =>
        (Return (PyStr (get_absolute_url o)), (set_link_model (Some o) obj, db'))
    | (Raise e, db') =>
        match handles_DoesNotExist (Some Model) e with
        | Return true => (Return PyNone, (set_link_model None obj, db'))
        | _ => (Raise e, (obj, db'))
        end
    end.
Proof.
  unfold get_link. run. rewrite Hlink. simpl.
  rewrite Hcmspage, Hkeys, Hfresh. simpl.
  unfold referenced_model in Hmodel. unfold getitem. rewrite Hpk.
  destruct (link !! "model") as [[]|] eqn:Hm; try done. simpl.
  unfold get_model.
  destruct (find_model db (split "." s)) as [[Model' |] |]; try done.
  injection Hmodel as ->. simpl.
  destruct (objects_get Model v db) as [[o | e] db']; simpl; [done |].
  destruct e; simpl; try done. by destruct (bool_decide (m = Model)).
Qed.

Lemma get_link_found (o : ModelObj) :
  rows db Model v = Some o →
  get_link (obj, db)
  = (Return (PyStr (get_absolute_url o)),
     (set_link_model (Some o) obj, logged Model v db)).
Proof. intros Hrow. rewrite get_link_queries. unfold objects_get. by rewrite Hrow. Qed.

Lemma get_link_missing :
  rows db Model v = None →
  rejected db Model v = None →
  get_link (obj, db)
  = (Return PyNone, (set_link_model None obj, logged Model v db)).
Proof.
  intros Hrow Hvalid. rewrite get_link_queries. unfold objects_get.
  rewrite Hrow, Hvalid. simpl. by rewrite bool_decide_eq_true_2.
Qed.

End get_link.

Lemma contains_true (d : gmap string PyVal) (key : string) (v : PyVal) :
  d !! key = Some v → contains d key = true.
Proof. intros H. unfold contains. rewrite H. by apply bool_decide_eq_true_2. Qed.

Lemma contains_false (d : gmap string PyVal) (key : string) :
  d !! key = None → contains d key = false.
Proof.
  intros H. unfold contains. rewrite H. apply bool_decide_eq_false_2.
  by intros [? ?].
Qed.

Lemma referenced_model_contains (db : Database) (link : gmap string PyVal) (m : ModelClass) :
  referenced_model db link = Some m → contains link "model" = true.
Proof.
  unfold referenced_model. destruct (link !! "model") eqn:H; [|done].
  intros _. by eapply contains_true.
Qed.

(** C2, as the code has it.  A link of any type but [cmspage] (an absent
    type included) yields the type itself.  A [cmspage] link with both keys
    yields the URL of the existing object it references on an instance
    that has no [_link_model] yet; on an instance that has the attribute,
    the object kept there (or [None]) decides. *)
Theorem get_link_resolves (obj : Plugin) (db : Database) (link : gmap string PyVal) :
  dict_get (glossary obj) "link" (PyDict ∅) = PyDict link →
  (ShopLinkPluginBase.is_cmspage link = false →
   ShopLinkPluginBase.get_link (obj, db) = (Return (dict_get link "type" PyNone), (obj, db)))
  ∧ (∀ Model v o,
       ShopLinkPluginBase.is_cmspage link = true →
       referenced_model db link = Some Model →
       link !! "pk" = Some v →
       rows db Model v = Some o →
       _link_model obj = None →
       fst (ShopLinkPluginBase.get_link (obj, db)) = Return (PyStr (get_absolute_url o)))
  ∧ (∀ cached,
       ShopLinkPluginBase.is_cmspage link = true →
       contains link "model" && contains link "pk" = true →
       _link_model obj = Some cached →
       ShopLinkPluginBase.get_link (obj, db)
       = (Return (from_option (λ o, PyStr (get_absolute_url o)) PyNone cached), (obj, db))).
Proof.
  intros Hlink. split; [| split].
  - by apply (get_link_keyword obj db link).
  - intros Model v o Hpage Hmodel Hpk Hrow Hfresh.
    assert (Hkeys : contains link "model" && contains link "pk" = true).
    { by rewrite (referenced_model_contains _ _ _ Hmodel), (contains_true _ _ _ Hpk). }
    by rewrite (get_link_found obj db link Hlink Hpage Hkeys Hfresh Model v Hmodel Hpk o Hrow).
  - intros cached Hpage Hkeys Hcache. by apply (get_link_cached obj db link).
Qed.

Lemma get_link_resolves_witness :
  fst (ShopLinkPluginBase.get_link (Sample.button, Sample.db_home)) = Return (PyStr "/home/").
Proof.
  destruct (get_link_resolves Sample.button Sample.db_home Sample.page_link eq_refl)
    as (_ & Hfound & _).
  apply (Hfound Sample.Page (PyInt 1) Sample.home); reflexivity.
Defined.

(** C2 does not hold of every instance.  An instance on which [get_link]
    already ran keeps what it found then: the button that was looked at
    before the home page existed has [_link_model = None], and still gets
    no link once the page is there. *)
Lemma get_link_stale_cache :
  ¬ ShopLinkPluginBase.resolves_by_type Sample.button_seen_missing Sample.db_home.
Proof.
  intros Hclaim.
  destruct (Hclaim Sample.page_link eq_refl) as [Hurl _].
  specialize (Hurl Sample.Page (PyInt 1) Sample.home eq_refl eq_refl eq_refl eq_refl).
  vm_compute in Hurl. discriminate.
Qed.

(** C8, as the code has it.  On a [cmspage] link that lacks the [model] or
    the [pk] key, [get_link] returns [None] and touches nothing.  On one
    that names a model which [get_model] finds and a primary key which the
    ORM accepts and no row has, it returns [None] unless the instance
    already keeps an object in [_link_model]. *)
Theorem get_link_dangling (obj : Plugin) (db : Database) (link : gmap string PyVal) :
  dict_get (glossary obj) "link" (PyDict ∅) = PyDict link →
  ShopLinkPluginBase.is_cmspage link = true →
  (link !! "model" = None ∨ link !! "pk" = None →
   ShopLinkPluginBase.get_link (obj, db) = (Return PyNone, (obj, db)))
  ∧ (∀ Model v,
       referenced_model db link = Some Model →
       link !! "pk" = Some v →
       rows db Model v = None →
       rejected db Model v = None →
       (∀ o, _link_model obj ≠ Some (Some o)) →
       fst (ShopLinkPluginBase.get_link (obj, db)) = Return PyNone).
Proof.
  intros Hlink Hpage. split.
  - intros Hkey. apply (get_link_incomplete obj db link Hlink Hpage).
    destruct Hkey as [Hkey | Hkey]; rewrite (contains_false _ _ Hkey);
      [done | apply andb_false_r].
  - intros Model v Hmodel Hpk Hrow Hvalid Hcache.
    assert (Hkeys : contains link "model" && contains link "pk" = true).
    { by rewrite (referenced_model_contains _ _ _ Hmodel), (contains_true _ _ _ Hpk). }
    destruct (_link_model obj) as [[o |] |] eqn:Hcached.
    + by destruct (Hcache o).
    + by rewrite (get_link_cached obj db link Hlink Hpage Hkeys None Hcached).
    + by rewrite (get_link_missing obj db link Hlink Hpage Hkeys Hcached Model v
                    Hmodel Hpk Hrow Hvalid).
Qed.

Lemma get_link_dangling_witness :
  fst (ShopLinkPluginBase.get_link (Sample.button, Sample.db_empty)) = Return PyNone.
Proof.
  destruct (get_link_dangling Sample.button Sample.db_empty Sample.page_link eq_refl eq_refl)
    as [_ Hmissing].
  apply (Hmissing Sample.Page (PyInt 1)); [reflexivity .. | discriminate].
Defined.

(** C8 does not hold of every instance.  The button that was looked at
    while the home page existed keeps the page in [_link_model], and keeps
    linking to it after the page is gone. *)
Lemma get_link_keeps_deleted_object :
  ¬ ShopLinkPluginBase.none_when_dangling Sample.button_seen_home Sample.db_empty.
Proof.
  intros Hclaim.
  specialize (Hclaim Sample.page_link eq_refl eq_refl).
  assert (Hgone : fst (ShopLinkPluginBase.get_link (Sample.button_seen_home, Sample.db_empty))
                  = Return PyNone).
  { apply Hclaim. right. right. exists Sample.Page, (PyInt 1). done. }
  vm_compute in Hgone. discriminate.
Qed.



Lemma referenced_model_logged (m : ModelClass) (v : PyVal) (db : Database)
    (link : gmap string PyVal) :
  referenced_model (logged m v db) link = referenced_model db link.
Proof. reflexivity. Qed.




(** ** The glossary is only read *)

(** C7.  [get_link] and [get_identifier] leave [obj.glossary] as it was,
    however they end: [get_link] changes nothing on the instance but
    [_link_model], [get_identifier] changes nothing at all.  What they
    return is decided by the glossary (and, for [get_link], by
    [_link_model] and the database), not by anything else on the
    instance. *)
Theorem glossary_unchanged (mark_safe : PyVal → PyVal) (obj : Plugin) (db : Database) :
  (let obj' := fst (snd (ShopLinkPluginBase.get_link (obj, db))) in
   glossary obj' = glossary obj ∧ id obj' = id obj)
  ∧ snd (ShopButtonPluginBase.get_identifier mark_safe obj) = obj
  ∧ (∀ other,
       glossary other = glossary obj →
       fst (ShopButtonPluginBase.get_identifier mark_safe other)
       = fst (ShopButtonPluginBase.get_identifier mark_safe obj))
  ∧ (∀ other,
       glossary other = glossary obj →
       _link_model other = _link_model obj →
       fst (ShopLinkPluginBase.get_link (other, db))
       = fst (ShopLinkPluginBase.get_link (obj, db))).
Proof.
  split; [| split; [| split]].
  - unfold ShopLinkPluginBase.get_link. run_all. by_cases.
  - reflexivity.
  - intros other Hg. unfold ShopButtonPluginBase.get_identifier. run. by rewrite Hg.
  - intros other Hg Hc. destruct obj as [i g c], other as [i' g' c']. simpl in *. subst.
    unfold ShopLinkPluginBase.get_link. run_all. by_cases.
Qed.

(** ** The link form *)

Section set_initial_product.
Import CatalogLinkForm.

Variables (initial : gmap string PyVal) (db : Database).

Lemma set_initial_product_no_link :
  initial !! "link" = None →
  set_initial_product (initial, db) = (Return tt, (initial, db)).
Proof. intros Hlink. unfold set_initial_product. run_all. by rewrite Hlink. Qed.

Variable link : gmap string PyVal.
Hypothesis Hlink : initial !! "link" = Some (PyDict link).

Lemma set_initial_product_no_model :
  link !! "model" = None →
  set_initial_product (initial, db) = (Return tt, (initial, db)).
Proof. intros Hm. unfold set_initial_product. run_all. rewrite Hlink. simpl. by rewrite Hm. Qed.

Variable Model : ModelClass.
Hypothesis Hmodel : referenced_model db link = Some Model.

Lemma set_initial_product_no_pk :
  link !! "pk" = None →
  set_initial_product (initial, db) = (Return tt, (initial, db)).
Proof.
  intros Hpk. unfold set_initial_product. run_all. rewrite Hlink. simpl.
  unfold referenced_model in Hmodel.
  destruct (link !! "model") as [[] |]; try done. simpl.
  destruct (find_model db (split "." s)) as [[Model' |] |] eqn:Hfind; try done.
  simpl. by rewrite Hpk.
Qed.

Variable v : PyVal.
Hypothesis Hpk : link !! "pk" = Some v.

(** With the model found and the key there, [set_initial_product] gets as
    far as the query. *)
Lemma set_initial_product_queries :
  set_initial_product (initial, db)
  = match objects_get Model v db with
    | (Return o, db') => (Return tt, (<["product" := PyModel o]> initial, db'))
    | (Raise e, db') =>
        match handles_KeyError_ObjectDoesNotExist e with
        | Return true => (Return tt, (initial, db'))
        | _ => (Raise e, (initial, db'))
        end
    end.
Proof.
  unfold set_initial_product. unfold subscript, getitem, str_split, get_model, objects. run.
  rewrite Hlink. simpl.
  unfold referenced_model in Hmodel.
  destruct (link !! "model") as [[] |]; try done. simpl.
  destruct (find_model db (split "." s)) as [[Model' |] |] eqn:Hfind; try done.
  injection Hmodel as ->. simpl. rewrite Hpk. cbn [fst snd].
  destruct (objects_get Model v db) as [[o | e] db']; simpl; [done |].
  by destruct e.
Qed.

Lemma set_initial_product_no_row :
  rows db Model v = None →
  rejected db Model v = None →
  set_initial_product (initial, db) = (Return tt, (initial, logged Model v db)).
Proof.
  intros Hrow Hvalid. rewrite set_initial_product_queries. unfold objects_get.
  by rewrite Hrow, Hvalid.
Qed.


Lemma set_initial_product_row (o : ModelObj) :
  rows db Model v = Some o →
  set_initial_product (initial, db)
  = (Return tt, (<["product" := PyModel o]> initial, logged Model v db)).
Proof.
  intros Hrow. rewrite set_initial_product_queries. unfold objects_get. by rewrite Hrow.
Qed.
End set_initial_product.

(** C10, as the code has it.  Without a [link] entry, or without a [model]
    key in it, [set_initial_product] returns and leaves [initial] as it
    was.  When the [model] key names a model which [get_model] finds, it
    does the same if the [pk] key is missing, or if the ORM accepts the
    primary key and no row has it, and it enters the object as
    [initial['product']] if there is a row. *)
Theorem set_initial_product_enters_or_passes (initial : gmap string PyVal) (db : Database) :
  (initial !! "link" = None →
   CatalogLinkForm.set_initial_product (initial, db) = (Return tt, (initial, db)))
  ∧ (∀ link, initial !! "link" = Some (PyDict link) →
       (link !! "model" = None →
        CatalogLinkForm.set_initial_product (initial, db) = (Return tt, (initial, db)))
       ∧ (∀ Model, referenced_model db link = Some Model →
            (link !! "pk" = None →
             CatalogLinkForm.set_initial_product (initial, db) = (Return tt, (initial, db)))
            ∧ (∀ v, link !! "pk" = Some v →
                 (rows db Model v = None → rejected db Model v = None →
                  CatalogLinkForm.set_initial_product (initial, db)
                  = (Return tt, (initial, logged Model v db)))
                 ∧ (∀ o, rows db Model v = Some o →
                      CatalogLinkForm.set_initial_product (initial, db)
                      = (Return tt,
                         (<["product" := PyModel o]> initial, logged Model v db)))))).
Proof.
  split; [apply set_initial_product_no_link |].
  intros link Hlink. split; [by apply (set_initial_product_no_model initial db link) |].
  intros Model Hmodel. split; [by apply (set_initial_product_no_pk initial db link Hlink Model) |].
  intros v Hpk. split.
  - by apply (set_initial_product_no_row initial db link Hlink Model Hmodel v).
  - intros o. by apply (set_initial_product_row initial db link Hlink Model Hmodel v).
Qed.

Lemma set_initial_product_enters_or_passes_witness :
  CatalogLinkForm.set_initial_product (Sample.initial_home, Sample.db_home)
  = (Return tt,
     (<["product" := PyModel Sample.home]> Sample.initial_home,
      logged Sample.Page (PyInt 1) Sample.db_home)).
Proof.
  destruct (set_initial_product_enters_or_passes Sample.initial_home Sample.db_home)
    as [_ Hlink].
  destruct (Hlink Sample.page_link eq_refl) as [_ Hmodel].
  destruct (Hmodel Sample.Page eq_refl) as [_ Hpk].
  destruct (Hpk (PyInt 1) eq_refl) as [_ Hrow].
  apply (Hrow Sample.home). reflexivity.
Defined.

(** C10 does not hold of every [initial].  With a link that lacks the [pk]
    key and names a model which is not installed, [set_initial_product]
    raises: [get_model] returns [None], whose attribute [objects] is looked
    up before the key, and an [AttributeError] is not caught. *)
Lemma set_initial_product_unknown_model :
  ¬ CatalogLinkForm.enters_product_or_passes Sample.initial_unknown_model Sample.db_home.
Proof.
  intros [_ Hpasses].
  assert (Hreturns :
    fst (CatalogLinkForm.set_initial_product (Sample.initial_unknown_model, Sample.db_home))
    = Return tt).
  { apply Hpasses. right.
    exists {[ "type" := PyStr "product"; "model" := PyStr "myshop.Product" ]}.
    split; [reflexivity |]. right. left. reflexivity. }
  vm_compute in Hreturns. discriminate.
Qed.

Section clean_product.
Import CatalogLinkForm.

Variables (ProductModel : ModelClass) (cleaned_data : gmap string PyVal).

Lemma clean_product_other_type :
  eq_str (dict_get cleaned_data "link_type" PyNone) "product" = false →
  clean_product ProductModel cleaned_data = (Return PyNone, cleaned_data).
Proof. intros Htype. unfold clean_product. run. by rewrite Htype. Qed.

Hypothesis Htype : eq_str (dict_get cleaned_data "link_type" PyNone) "product" = true.

Lemma clean_product_none_selected :
  cleaned_data !! "product" = Some PyNone →
  clean_product ProductModel cleaned_data
  = (Return PyNone, <["link_data" := PyDict (link_data_with ProductModel PyNone)]> cleaned_data).
Proof. intros Hp. unfold clean_product. run_all. by rewrite Htype, Hp. Qed.

(** With a product selected, the [pk] entry is its primary key, except
    that the primary key 0 comes out as [None]. *)
Lemma clean_product_selected (o : ModelObj) :
  cleaned_data !! "product" = Some (PyModel o) →
  clean_product ProductModel cleaned_data
  = (Return PyNone,
     <["link_data" :=
         PyDict (link_data_with ProductModel (if Z.eqb (pk o) 0 then PyNone else PyInt (pk o)))]>
       cleaned_data).
Proof.
  intros Hp. unfold clean_product. run_all. rewrite Htype, Hp. simpl.
  unfold py_or, link_data_with. simpl. by destruct (Z.eqb (pk o) 0).
Qed.
End clean_product.

(** C6.  On the product whose primary key is 0, [clean_product] stores
    [None] as the [pk] of the link data, as it does when no product is
    selected, where the primary key of the selected product was meant; on
    the product with primary key 5 it stores 5. *)
Theorem clean_product_pk_zero :
  snd (CatalogLinkForm.clean_product Sample.Product Sample.cleaned_zero) !! "link_data"
  = Some (PyDict {[ "type" := PyStr "product"; "model" := PyStr "myshop.Product";
                    "pk" := PyNone ]})
  ∧ snd (CatalogLinkForm.clean_product Sample.Product Sample.cleaned_five) !! "link_data"
    = Some (PyDict {[ "type" := PyStr "product"; "model" := PyStr "myshop.Product";
                      "pk" := PyInt 5 ]}).
Proof.
  rewrite (clean_product_selected Sample.Product Sample.cleaned_zero eq_refl
             Sample.product_zero eq_refl).
  rewrite (clean_product_selected Sample.Product Sample.cleaned_five eq_refl
             Sample.product_five eq_refl).
  simpl. rewrite !lookup_insert_eq. done.
Qed.

(** ** Dialog form plugins *)

Section get_render_template.
Import DialogFormPluginBase.

Variables (APP_LABEL : string) (templates : gmap string string).

Lemma select_from_In (names : list string) (t : Template) :
  select_from templates names = Some t →
  template_name t ∈ names ∧ templates !! template_name t = Some (template_source t).
Proof.
  induction names as [| name rest IH]; simpl; [done |].
  destruct (templates !! name) as [source |] eqn:Hname.
  - intros [= <-]. simpl. split; [apply list_elem_of_here | done].
  - intros Hrest. destruct (IH Hrest) as [Hin Hsrc]. split; [by apply list_elem_of_further | done].
Qed.

(** C5.  [get_render_template] offers [select_template] exactly two
    names, the one under the application label of the shop settings first
    and the one under [shop] second: the first is taken when it can be
    loaded, the second when only it can, and [TemplateDoesNotExist] is
    raised for the two names when neither can. *)
Theorem get_render_template_candidates {S} (self : Self) (leaf : string) (s : S) :
  template_leaf_name (__class__ self) = Some leaf →
  let first := APP_LABEL ++ "/checkout/" ++ leaf in
  let fallback := "shop/checkout/" ++ leaf in
  template_names APP_LABEL leaf = [first; fallback]
  ∧ get_render_template APP_LABEL templates self s
    = select_template templates [first; fallback] s
  ∧ (∀ source, templates !! first = Some source →
       get_render_template APP_LABEL templates self s
       = (Return (mkTemplate first source), s))
  ∧ (∀ source, templates !! first = None → templates !! fallback = Some source →
       get_render_template APP_LABEL templates self s
       = (Return (mkTemplate fallback source), s))
  ∧ (templates !! first = None → templates !! fallback = None →
       get_render_template APP_LABEL templates self s
       = (Raise (TemplateDoesNotExist [first; fallback]), s))
  ∧ (∀ t s', get_render_template APP_LABEL templates self s = (Return t, s') →
       template_name t = first ∨ template_name t = fallback).
Proof.
  intros Hleaf first fallback.
  assert (Hrun : get_render_template APP_LABEL templates self s
                 = select_template templates [first; fallback] s).
  { unfold get_render_template, attr_template_leaf_name. rewrite Hleaf. reflexivity. }
  split; [reflexivity |]. split; [exact Hrun |]. rewrite Hrun.
  unfold select_template.
  repeat split.
  - intros source Hfirst. simpl. by rewrite Hfirst.
  - intros source Hfirst Hfallback. simpl. by rewrite Hfirst, Hfallback.
  - intros Hfirst Hfallback. simpl. by rewrite Hfirst, Hfallback.
  - intros t s'.
    destruct (select_from templates [first; fallback]) as [t' |] eqn:Hsel; [| discriminate].
    intros [= <- _]. apply select_from_In in Hsel as [Hin _].
    apply elem_of_cons in Hin as [-> | Hin]; [by left |].
    apply list_elem_of_singleton in Hin as ->. by right.
Qed.
End get_render_template.

Lemma get_render_template_candidates_witness :
  DialogFormPluginBase.get_render_template "myshop" Sample.shipped_templates
    Sample.customer_plugin tt
  = (Return (DialogFormPluginBase.mkTemplate "shop/checkout/customer.html" "<form>...</form>"),
     tt).
Proof.
  destruct (get_render_template_candidates "myshop" Sample.shipped_templates
              Sample.customer_plugin "customer.html" tt eq_refl)
    as (_ & _ & _ & Hfallback & _).
  apply Hfallback; reflexivity.
Defined.

Section render.
Import DialogFormPluginBase.

Variable super_render : gmap string PyVal → Plugin → PyVal → gmap string PyVal.
Variables (self : Self) (instance : Plugin) (placeholder : PyVal).
Variable st : RenderState.
Hypothesis Hrequest : context st !! "request" = Some PyRequest.

Let form_data := call_get_form_data self (request st).
Let order := next_order (request st).
Let bound_form := PyForm (FormClass self) (form_kwargs form_data (id instance) order).
Let ctx := super_render (<[form_name (FormClass self) := bound_form]> (context st))
             instance placeholder.

Lemma render_eq :
  render super_render self instance placeholder st
  = (Return ctx, mkRender (mkRequest (Some order) (request_attrs (request st))) ctx).
Proof.
  unfold render. run_all. rewrite Hrequest. simpl.
  subst ctx bound_form order form_data.
  unfold form_kwargs, form_initial, supplied_initial, next_order, dict_get.
  destruct (call_get_form_data self (request st) !! "initial") as [[] |] eqn:Hinit;
    rewrite ?lookup_insert_eq, ?Hinit; simpl; rewrite ?insert_insert_eq; reflexivity.
Qed.
End render.

(** C4.  A call of [render] leaves [request._plugin_order] one above what
    it was, counting an absent attribute as 0, so that the first plugin
    rendered gets the order 1.  The form is called with an [initial]
    dictionary that holds the id of the instance as [plugin_id] and the new
    counter as [plugin_order], whatever [get_form_data] supplied under
    these two keys, and that agrees with the supplied initial data on every
    other key. *)
Theorem render_plugin_order
    (super_render : gmap string PyVal → Plugin → PyVal → gmap string PyVal)
    (self : DialogFormPluginBase.Self) (instance : Plugin) (placeholder : PyVal)
    (st : DialogFormPluginBase.RenderState) :
  DialogFormPluginBase.context st !! "request" = Some PyRequest →
  let finished := DialogFormPluginBase.render super_render self instance placeholder st in
  let before := default 0%Z (_plugin_order (DialogFormPluginBase.request st)) in
  let supplied :=
    DialogFormPluginBase.call_get_form_data self (DialogFormPluginBase.request st) in
  _plugin_order (DialogFormPluginBase.request (snd finished)) = Some (before + 1)%Z
  ∧ (_plugin_order (DialogFormPluginBase.request st) = None →
     _plugin_order (DialogFormPluginBase.request (snd finished)) = Some 1%Z)
  ∧ ∃ kwargs initial,
      fst finished
      = Return (super_render
                  (<[form_name (DialogFormPluginBase.FormClass self) :=
                       PyForm (DialogFormPluginBase.FormClass self) kwargs]>
                     (DialogFormPluginBase.context st))
                  instance placeholder)
      ∧ kwargs !! "initial" = Some (PyDict initial)
      ∧ initial !! "plugin_id" = Some (PyInt (id instance))
      ∧ initial !! "plugin_order" = Some (PyInt (before + 1))
      ∧ (∀ key, key ≠ "plugin_id" → key ≠ "plugin_order" →
           initial !! key = DialogFormPluginBase.supplied_initial supplied !! key).
Proof.
  intros Hrequest finished before supplied. subst finished.
  rewrite (render_eq super_render self instance placeholder st Hrequest). simpl.
  split; [reflexivity |]. split.
  - unfold DialogFormPluginBase.next_order. by intros ->.
  - eexists _, _. split; [reflexivity |].
    unfold DialogFormPluginBase.form_kwargs. rewrite lookup_insert_eq.
    split; [reflexivity |]. unfold DialogFormPluginBase.form_initial.
    split; [by rewrite lookup_insert_ne, lookup_insert_eq |].
    split; [by rewrite lookup_insert_eq |].
    intros key Hid Horder. by rewrite !lookup_insert_ne.
Qed.

Lemma render_plugin_order_witness :
  _plugin_order
    (DialogFormPluginBase.request
       (snd (DialogFormPluginBase.render Sample.base_render Sample.customer_plugin
               Sample.customer_instance (PyStr "checkout") Sample.checkout)))
  = Some 3%Z.
Proof.
  apply (render_plugin_order Sample.base_render Sample.customer_plugin
           Sample.customer_instance (PyStr "checkout") Sample.checkout eq_refl).
Defined.

(** C3.  Constructing an instance of a class that inherits from
    [DialogFormPluginBase] imports the dotted path that the class's
    [get_form_class()] returns and keeps the imported class as
    [self.FormClass]; the construction succeeds when that path can be
    imported.  [render] then calls exactly that class with the dictionary
    [get_form_data(request)] returned, in which only the [initial] entry
    has been completed, and hands the context on with the bound form
    entered under the form's [form_name]. *)
Theorem dialog_form_binding {S}
    (modules : gmap string PyFormClass)
    (super_render : gmap string PyVal → Plugin → PyVal → gmap string PyVal)
    (cls : PyClass) (s : S)
    (instance : Plugin) (placeholder : PyVal) (st : DialogFormPluginBase.RenderState) :
  DialogFormPluginBase.name ∈ __mro__ cls →
  DialogFormPluginBase.context st !! "request" = Some PyRequest →
  DialogFormPluginBase.__init__ modules cls s
  = match DialogFormPluginBase.import_by_path modules
            (DialogFormPluginBase.plugin_form_class cls) s with
    | (Return form, s') => (Return (DialogFormPluginBase.mkSelf cls form), s')
    | (Raise e, s') => (Raise e, s')
    end
  ∧ ∀ path form,
      DialogFormPluginBase.plugin_form_class cls = PyStr path →
      modules !! path = Some form →
      ∃ self kwargs,
        DialogFormPluginBase.__init__ modules cls s = (Return self, s)
        ∧ DialogFormPluginBase.FormClass self = form
        ∧ fst (DialogFormPluginBase.render super_render self instance placeholder st)
          = Return (super_render
                      (<[form_name form := PyForm form kwargs]>
                         (DialogFormPluginBase.context st))
                      instance placeholder)
        ∧ kwargs
          = <["initial" := PyDict (DialogFormPluginBase.form_initial
                                     (DialogFormPluginBase.call_get_form_data self
                                        (DialogFormPluginBase.request st))
                                     (id instance)
                                     (DialogFormPluginBase.next_order
                                        (DialogFormPluginBase.request st)))]>
              (DialogFormPluginBase.call_get_form_data self (DialogFormPluginBase.request st))
        ∧ (∀ key, key ≠ "initial" →
             kwargs !! key
             = DialogFormPluginBase.call_get_form_data self (DialogFormPluginBase.request st)
                 !! key).
Proof.
  intros Hsub Hrequest.
  assert (Hcall : DialogFormPluginBase.call_get_form_class cls s
                  = (Return (DialogFormPluginBase.plugin_form_class cls), s)).
  { by apply call_get_form_class_inherits. }
  assert (Hinit : DialogFormPluginBase.__init__ modules cls s
    = match DialogFormPluginBase.import_by_path modules
              (DialogFormPluginBase.plugin_form_class cls) s with
      | (Return form, s') => (Return (DialogFormPluginBase.mkSelf cls form), s')
      | (Raise e, s') => (Raise e, s')
      end).
  { unfold DialogFormPluginBase.__init__. unfold M.bind at 1. rewrite Hcall.
    unfold M.bind, M.ret.
    by destruct (DialogFormPluginBase.import_by_path modules _ s) as [[] ?]. }
  split; [exact Hinit |].
  intros path form Hpath Hmodule.
  exists (DialogFormPluginBase.mkSelf cls form). eexists. split.
  - rewrite Hinit, Hpath. unfold DialogFormPluginBase.import_by_path. by rewrite Hmodule.
  - split; [reflexivity |].
    rewrite (render_eq super_render _ instance placeholder st Hrequest). simpl.
    split; [reflexivity |]. split; [reflexivity |].
    intros key Hkey. unfold DialogFormPluginBase.form_kwargs. by rewrite lookup_insert_ne.
Qed.

Lemma dialog_form_binding_witness :
  DialogFormPluginBase.__init__ Sample.form_modules Sample.CustomerFormPlugin tt
  = (Return Sample.customer_plugin, tt).
Proof.
  destruct (dialog_form_binding Sample.form_modules Sample.base_render
              Sample.CustomerFormPlugin tt Sample.customer_instance (PyStr "checkout")
              Sample.checkout) as [Hinit _].
  - apply list_elem_of_further, list_elem_of_here.
  - reflexivity.
  - rewrite Hinit. reflexivity.
Defined.

(** * Further properties *)

(** ** What [get_link] does to the database and to the instance *)



(** X1.  [get_link] never changes the installed models or the rows of the
    database.  It issues no query at all, or exactly one, and that one
    only on an instance without [_link_model], for the model and the
    primary key that the link of the glossary names. *)
Theorem get_link_database_frame (obj : Plugin) (db : Database) :
  let after := snd (ShopLinkPluginBase.get_link (obj, db)) in
  installed_models (snd after) = installed_models db
  ∧ rows (snd after) = rows db
  ∧ (queries (snd after) = queries db
     ∨ _link_model obj = None
       ∧ ∃ link Model v,
           dict_get (glossary obj) "link" (PyDict ∅) = PyDict link
           ∧ referenced_model db link = Some Model
           ∧ link !! "pk" = Some v
           ∧ queries (snd after) = (queries db ++ [(Model, v)])%list).
Proof.
  unfold ShopLinkPluginBase.get_link. run_all.
  repeat (case_match; simpl in *; simplify_eq); simpl in *; simplify_eq.
  all: repeat split; try done; try (by left).
  all: right; split; [by destruct (_link_model obj) |].
  all: eexists _, _, _; split; [done |]; unfold referenced_model.
  all: repeat match goal with H : _ !! _ = Some _ |- _ => rewrite H end.
  all: repeat match goal with H : find_model _ _ = _ |- _ => rewrite H end.
  all: done.
Qed.



(** X3.  On an instance that has [_link_model], [get_link] changes nothing
    and issues no query, whatever the glossary holds.  For a [cmspage]
    link with both keys its result is decided by the kept object alone:
    another glossary naming another model or primary key, or another
    database, gives the same result. *)
Theorem get_link_kept_object_final (obj : Plugin) (db : Database) (kept : option ModelObj) :
  _link_model obj = Some kept →
  snd (ShopLinkPluginBase.get_link (obj, db)) = (obj, db)
  ∧ ∀ (obj' : Plugin) (db' : Database) (link link' : gmap string PyVal),
      _link_model obj' = Some kept →
      dict_get (glossary obj) "link" (PyDict ∅) = PyDict link →
      dict_get (glossary obj') "link" (PyDict ∅) = PyDict link' →
      ShopLinkPluginBase.is_cmspage link = true →
      ShopLinkPluginBase.is_cmspage link' = true →
      contains link "model" && contains link "pk" = true →
      contains link' "model" && contains link' "pk" = true →
      fst (ShopLinkPluginBase.get_link (obj', db'))
      = fst (ShopLinkPluginBase.get_link (obj, db)).
Proof.
  intros Hkept. split.
  - unfold ShopLinkPluginBase.get_link. run_all. rewrite Hkept.
    repeat (case_match; simpl in *; simplify_eq); done.
  - intros obj' db' link link' Hkept' Hlink Hlink' Hpage Hpage' Hkeys Hkeys'.
    rewrite (get_link_cached obj db link Hlink Hpage Hkeys kept Hkept).
    by rewrite (get_link_cached obj' db' link' Hlink' Hpage' Hkeys' kept Hkept').
Qed.

Lemma get_link_kept_object_final_witness :
  snd (ShopLinkPluginBase.get_link (Sample.button_seen_home, Sample.db_empty))
  = (Sample.button_seen_home, Sample.db_empty).
Proof.
  apply (get_link_kept_object_final Sample.button_seen_home Sample.db_empty
           (Some Sample.home) eq_refl).
Defined.

(** ** What [set_initial_product] does to [initial] and to the database *)

(** X4.  [set_initial_product] changes no entry of [initial] but
    [product], which it leaves alone or sets to a row of the database; it
    never changes the installed models or the rows, and issues at most one
    query. *)
Theorem set_initial_product_frame (initial : gmap string PyVal) (db : Database) :
  let after := snd (CatalogLinkForm.set_initial_product (initial, db)) in
  (∀ key, key ≠ "product" → fst after !! key = initial !! key)
  ∧ (fst after !! "product" = initial !! "product"
     ∨ ∃ Model v o, rows db Model v = Some o ∧ fst after !! "product" = Some (PyModel o))
  ∧ installed_models (snd after) = installed_models db
  ∧ rows (snd after) = rows db
  ∧ (queries (snd after) = queries db
     ∨ ∃ Model v, queries (snd after) = (queries db ++ [(Model, v)])%list).
Proof.
  unfold CatalogLinkForm.set_initial_product. run_all.
  repeat (case_match; simpl in *; simplify_eq); simpl in *; simplify_eq.
  all: repeat split; try done; eauto.
  all: try (intros key Hkey; by rewrite lookup_insert_ne).
  all: try (right; eexists _, _, _; split; [eassumption | by rewrite lookup_insert_eq]).
Qed.

(** X5.  [set_initial_product] lets no [KeyError] and no [DoesNotExist]
    escape.  When it raises, [initial] is as it was, and either no query
    was issued, or the one query of the call, for the model and the
    primary key of the link, was turned down by the ORM, and the exception
    is the one it was turned down with. *)
Theorem set_initial_product_failure (initial : gmap string PyVal) (db : Database) (e : PyExc) :
  fst (CatalogLinkForm.set_initial_product (initial, db)) = Raise e →
  fst (snd (CatalogLinkForm.set_initial_product (initial, db))) = initial
  ∧ (∀ key, e ≠ KeyError key) ∧ (∀ m, e ≠ DoesNotExist m)
  ∧ (snd (snd (CatalogLinkForm.set_initial_product (initial, db))) = db
     ∨ ∃ link Model v r,
         initial !! "link" = Some (PyDict link)
         ∧ referenced_model db link = Some Model
         ∧ link !! "pk" = Some v
         ∧ rows db Model v = None
         ∧ rejected db Model v = Some r
         ∧ e = rejection r
         ∧ snd (snd (CatalogLinkForm.set_initial_product (initial, db)))
           = logged Model v db).
Proof.
  unfold CatalogLinkForm.set_initial_product. run_all.
  repeat (case_match; simpl in *; simplify_eq); simpl in *; simplify_eq;
    intros He; simplify_eq; try done.
  all: repeat split; try done; try (by left).
  all: right; eexists _, _, _, _; split; [done |]; unfold referenced_model.
  all: repeat match goal with H : _ !! _ = Some _ |- _ => rewrite H end.
  all: repeat match goal with H : find_model _ _ = _ |- _ => rewrite H end.
  all: repeat split; try done; eassumption.
Qed.

Lemma set_initial_product_failure_witness :
  fst (snd (CatalogLinkForm.set_initial_product
              ({[ "link" := PyDict SampleShop.unconvertible_link ]}, SampleShop.db_pages)))
  = {[ "link" := PyDict SampleShop.unconvertible_link ]}.
Proof.
  apply (set_initial_product_failure {[ "link" := PyDict SampleShop.unconvertible_link ]}
           SampleShop.db_pages (ValueError "invalid literal for int() with base 10: 'abc'")).
  reflexivity.
Defined.

Lemma set_initial_product_keeps_link (initial : gmap string PyVal) (db : Database) :
  let after := snd (CatalogLinkForm.set_initial_product (initial, db)) in
  fst after !! "link" = initial !! "link"
  ∧ installed_models (snd after) = installed_models db
  ∧ rows (snd after) = rows db
  ∧ loaded_models (snd after) = loaded_models db
  ∧ rejected (snd after) = rejected db.
Proof.
  unfold CatalogLinkForm.set_initial_product. run_all.
  repeat (case_match; simpl in *; simplify_eq); simpl in *; simplify_eq.
  all: repeat split; try done; by rewrite lookup_insert_ne.
Qed.

(** The outcome of [set_initial_product] hangs on the [link] entry and on
    what the database holds, not on the queries issued so far. *)
Lemma set_initial_product_ext (initial initial' : gmap string PyVal) (db db' : Database) :
  initial' !! "link" = initial !! "link" →
  installed_models db' = installed_models db →
  rows db' = rows db →
  loaded_models db' = loaded_models db →
  rejected db' = rejected db →
  fst (CatalogLinkForm.set_initial_product (initial', db'))
  = fst (CatalogLinkForm.set_initial_product (initial, db))
  ∧ (fst (snd (CatalogLinkForm.set_initial_product (initial', db'))) = initial'
     ∧ fst (snd (CatalogLinkForm.set_initial_product (initial, db))) = initial
     ∨ ∃ o,
         fst (snd (CatalogLinkForm.set_initial_product (initial', db')))
         = <["product" := PyModel o]> initial'
         ∧ fst (snd (CatalogLinkForm.set_initial_product (initial, db)))
           = <["product" := PyModel o]> initial).
Proof.
  intros Hlink Hinstalled Hrows Hloaded Hrejected.
  destruct db as [installed table log loaded turned_down],
    db' as [installed' table' log' loaded' turned_down'].
  simpl in *. subst installed' table' loaded' turned_down'.
  unfold CatalogLinkForm.set_initial_product. run_all. rewrite Hlink.
  unfold find_model.
  repeat (case_match; simpl in *; simplify_eq); simpl in *; simplify_eq;
    try (exfalso; congruence); eauto.
  all: right; eexists; split; [reflexivity | congruence].
Qed.

(** X6.  Running [set_initial_product] a second time ends as the first run
    did and leaves [initial] as the first run left it. *)
Theorem set_initial_product_idempotent (initial : gmap string PyVal) (db : Database) :
  let first := CatalogLinkForm.set_initial_product (initial, db) in
  let second := CatalogLinkForm.set_initial_product (snd first) in
  fst second = fst first ∧ fst (snd second) = fst (snd first).
Proof.
  intros first second. subst first second.
  destruct (set_initial_product_keeps_link initial db)
    as (Hlink & Hinstalled & Hrows & Hloaded & Hrejected).
  destruct (CatalogLinkForm.set_initial_product (initial, db)) as [r [initial' db']] eqn:Hfirst.
  simpl in *.
  destruct (set_initial_product_ext initial initial' db db'
              Hlink Hinstalled Hrows Hloaded Hrejected) as [Hsame Hstate].
  rewrite Hfirst in Hsame, Hstate. simpl in *. split; [done |].
  destruct Hstate as [[Hsecond _] | [o [Hsecond Hentered]]]; [done |].
  rewrite Hsecond, Hentered. apply insert_insert_eq.
Qed.

(** ** From the cleaned form to the initial data, and back to the link *)

Lemma split_dotless (s : string) : dotless s = true → split "." s = [s].
Proof.
  induction s as [| c rest IH]; simpl; [done |].
  intros [Hc Hrest]%andb_prop. apply negb_true_iff in Hc. rewrite Hc.
  by rewrite (IH Hrest).
Qed.

Lemma split_label (label name : string) :
  dotless label = true →
  split "." (label ++ "." ++ name) = label :: split "." name.
Proof.
  induction label as [| c rest IH]; simpl; [done |].
  intros [Hc Hrest]%andb_prop. apply negb_true_iff in Hc. rewrite Hc.
  by rewrite (IH Hrest).
Qed.

Lemma referenced_model_label (db : Database) (ProductModel : ModelClass) (pkv : PyVal) :
  dotless (app_label ProductModel) = true →
  dotless (model_name ProductModel) = true →
  referenced_model db (CatalogLinkForm.link_data_with ProductModel pkv)
  = installed_models db (app_label ProductModel) (model_name ProductModel).
Proof.
  intros Hlabel Hname. unfold referenced_model, CatalogLinkForm.link_data_with.
  rewrite lookup_insert_ne, lookup_insert_eq by done.
  rewrite (split_label _ _ Hlabel), (split_dotless _ Hname). simpl.
  by destruct (installed_models db (app_label ProductModel) (model_name ProductModel)).
Qed.

(** X7.  The link data that [clean_product] stores for a selected product
    lead [set_initial_product] back to that product: when the label and
    the name of the product model hold no dot, the model is installed
    under them, the product is the row of its primary key, and that key is
    not 0, then on any [initial] whose [link] is the stored link data
    [set_initial_product] enters the product, with one query. *)
Theorem clean_product_round_trip
    (ProductModel : ModelClass) (cleaned_data initial : gmap string PyVal)
    (o : ModelObj) (db : Database) :
  dotless (app_label ProductModel) = true →
  dotless (model_name ProductModel) = true →
  eq_str (dict_get cleaned_data "link_type" PyNone) "product" = true →
  cleaned_data !! "product" = Some (PyModel o) →
  pk o ≠ 0%Z →
  installed_models db (app_label ProductModel) (model_name ProductModel) = Some ProductModel →
  rows db ProductModel (PyInt (pk o)) = Some o →
  initial !! "link" = snd (CatalogLinkForm.clean_product ProductModel cleaned_data) !! "link_data" →
  CatalogLinkForm.set_initial_product (initial, db)
  = (Return tt, (<["product" := PyModel o]> initial, logged ProductModel (PyInt (pk o)) db)).
Proof.
  intros Hlabel Hname Htype Hproduct Hpk Hinstalled Hrow Hlink.
  rewrite (clean_product_selected ProductModel cleaned_data Htype o Hproduct) in Hlink.
  simpl in Hlink. rewrite lookup_insert_eq in Hlink.
  apply Z.eqb_neq in Hpk. rewrite Hpk in Hlink.
  apply (set_initial_product_row initial db _ Hlink ProductModel); [| | done].
  - by rewrite referenced_model_label.
  - unfold CatalogLinkForm.link_data_with.
    do 2 (rewrite lookup_insert_ne by done). by rewrite lookup_insert_eq.
Qed.

Lemma clean_product_round_trip_witness :
  CatalogLinkForm.set_initial_product
    ({[ "link" := PyDict (CatalogLinkForm.link_data_with Sample.Product (PyInt 5)) ]},
     SampleShop.db)
  = (Return tt,
     (<["product" := PyModel Sample.product_five]>
        {[ "link" := PyDict (CatalogLinkForm.link_data_with Sample.Product (PyInt 5)) ]},
      logged Sample.Product (PyInt 5) SampleShop.db)).
Proof.
  apply (clean_product_round_trip Sample.Product Sample.cleaned_five _
           Sample.product_five SampleShop.db);
    try reflexivity.
  discriminate.
Defined.




(** ** What [clean_product] does to the cleaned data *)

(** Every way [clean_product] can end. *)
Lemma clean_product_cases (ProductModel : ModelClass) (cleaned_data : gmap string PyVal) :
  CatalogLinkForm.clean_product ProductModel cleaned_data = (Return PyNone, cleaned_data)
  ∧ eq_str (dict_get cleaned_data "link_type" PyNone) "product" = false
  ∨ eq_str (dict_get cleaned_data "link_type" PyNone) "product" = true
    ∧ ((∃ e, CatalogLinkForm.clean_product ProductModel cleaned_data = (Raise e, cleaned_data)
             ∧ (e = KeyError "product" ∧ cleaned_data !! "product" = None
                ∨ e = AttributeError "pk"
                  ∧ ∃ v, cleaned_data !! "product" = Some v ∧ truthy v = true
                         ∧ ∀ o, v ≠ PyModel o))
       ∨ ∃ pkv, CatalogLinkForm.clean_product ProductModel cleaned_data
                = (Return PyNone,
                   <["link_data" := PyDict (CatalogLinkForm.link_data_with ProductModel pkv)]>
                     cleaned_data)
                ∧ (pkv = PyNone ∨ ∃ z, pkv = PyInt z ∧ z ≠ 0%Z)).
Proof.
  unfold CatalogLinkForm.clean_product, CatalogLinkForm.attr_pk, CatalogLinkForm.link_data_with.
  run_all.
  destruct (eq_str (dict_get cleaned_data "link_type" PyNone) "product"); [| by left].
  right. split; [done |].
  destruct (cleaned_data !! "product") as [v |] eqn:Hp; simpl; [| left; eauto].
  destruct (truthy v) eqn:Htrue; simpl.
  - destruct v; simpl in *; try (left; eexists; split; [done |]; right; split; [done |];
                                 eexists; split; [done |]; split; [done |]; done).
    right. unfold py_or. simpl. destruct (Z.eqb (pk o) 0) eqn:Hz; simpl; eexists; split; try done.
    + by left.
    + right. eexists. split; [done |]. by apply Z.eqb_neq.
  - right. unfold py_or. rewrite Htrue. eexists. split; [done |]. by left.
Qed.

Lemma clean_product_keeps_inputs (ProductModel : ModelClass) (d : gmap string PyVal) :
  snd (CatalogLinkForm.clean_product ProductModel d) !! "link_type" = d !! "link_type"
  ∧ snd (CatalogLinkForm.clean_product ProductModel d) !! "product" = d !! "product".
Proof.
  unfold CatalogLinkForm.clean_product, CatalogLinkForm.attr_pk. run_all.
  repeat (case_match; simpl in *; simplify_eq); simpl.
  all: split; try done; by rewrite lookup_insert_ne.
Qed.

(** The outcome of [clean_product] hangs on the entries [link_type] and
    [product] only. *)
Lemma clean_product_ext (ProductModel : ModelClass) (d d' : gmap string PyVal) :
  d' !! "link_type" = d !! "link_type" →
  d' !! "product" = d !! "product" →
  fst (CatalogLinkForm.clean_product ProductModel d')
  = fst (CatalogLinkForm.clean_product ProductModel d)
  ∧ (snd (CatalogLinkForm.clean_product ProductModel d') = d'
     ∧ snd (CatalogLinkForm.clean_product ProductModel d) = d
     ∨ ∃ link_data,
         snd (CatalogLinkForm.clean_product ProductModel d') = <["link_data" := link_data]> d'
         ∧ snd (CatalogLinkForm.clean_product ProductModel d) = <["link_data" := link_data]> d).
Proof.
  intros Htype Hproduct.
  unfold CatalogLinkForm.clean_product, CatalogLinkForm.attr_pk, dict_get. run_all.
  rewrite Htype, Hproduct.
  repeat (case_match; simpl in *; simplify_eq); eauto.
Qed.

(** X9.  [clean_product] changes no entry of the cleaned data but
    [link_data].  With the link type [product] and no [product] entry it
    raises [KeyError('product')]; whenever it raises, the exception is
    that one or the [AttributeError] of a selected value without [pk], and
    the cleaned data are as they were. *)
Theorem clean_product_frame (ProductModel : ModelClass) (cleaned_data : gmap string PyVal) :
  let finished := CatalogLinkForm.clean_product ProductModel cleaned_data in
  (∀ key, key ≠ "link_data" → snd finished !! key = cleaned_data !! key)
  ∧ (eq_str (dict_get cleaned_data "link_type" PyNone) "product" = true →
     cleaned_data !! "product" = None →
     finished = (Raise (KeyError "product"), cleaned_data))
  ∧ (∀ e, fst finished = Raise e →
       snd finished = cleaned_data
       ∧ (e = KeyError "product" ∨ e = AttributeError "pk")).
Proof.
  unfold CatalogLinkForm.clean_product, CatalogLinkForm.attr_pk. run_all.
  repeat (case_match; simpl in *; simplify_eq); simpl in *.
  all: split; [intros key Hkey; by rewrite ?lookup_insert_ne |].
  all: split; [by intros |].
  all: intros e' [= <-]; eauto.
Qed.

(** X10.  When [clean_product] returns on the link type [product], it
    returns [None] and the link data it has stored hold exactly the keys
    [type], [model] and [pk]: the type is [product], the model is the
    dotted label of the product model, and the [pk] is [None] or an
    integer other than 0. *)
Theorem clean_product_link_data_shape
    (ProductModel : ModelClass) (cleaned_data : gmap string PyVal) (r : PyVal) :
  eq_str (dict_get cleaned_data "link_type" PyNone) "product" = true →
  fst (CatalogLinkForm.clean_product ProductModel cleaned_data) = Return r →
  r = PyNone
  ∧ ∃ link_data pkv,
      snd (CatalogLinkForm.clean_product ProductModel cleaned_data) !! "link_data"
      = Some (PyDict link_data)
      ∧ dom link_data = {[ "type"; "model"; "pk" ]}
      ∧ link_data !! "type" = Some (PyStr "product")
      ∧ link_data !! "model"
        = Some (PyStr (app_label ProductModel ++ "." ++ model_name ProductModel))
      ∧ link_data !! "pk" = Some pkv
      ∧ (pkv = PyNone ∨ ∃ z, pkv = PyInt z ∧ z ≠ 0%Z).
Proof.
  intros Htype.
  destruct (clean_product_cases ProductModel cleaned_data)
    as [[_ Hother] | [_ [(e & -> & _) | (pkv & -> & Hpk)]]]; [congruence | done |].
  simpl. intros [= <-]. split; [done |].
  exists (CatalogLinkForm.link_data_with ProductModel pkv), pkv.
  rewrite lookup_insert_eq. unfold CatalogLinkForm.link_data_with.
  split; [done |]. split; [| split; [| split; [| split]]]; done.
Qed.

Lemma clean_product_link_data_shape_witness :
  ∃ link_data pkv,
    snd (CatalogLinkForm.clean_product Sample.Product Sample.cleaned_five) !! "link_data"
    = Some (PyDict link_data)
    ∧ dom link_data = {[ "type"; "model"; "pk" ]}
    ∧ link_data !! "type" = Some (PyStr "product")
    ∧ link_data !! "model" = Some (PyStr "myshop.Product")
    ∧ link_data !! "pk" = Some pkv
    ∧ (pkv = PyNone ∨ ∃ z, pkv = PyInt z ∧ z ≠ 0%Z).
Proof.
  apply (clean_product_link_data_shape Sample.Product Sample.cleaned_five PyNone
           eq_refl eq_refl).
Defined.

(** X11.  Cleaning twice is cleaning once: on the cleaned data that
    [clean_product] leaves behind, it ends the same way and leaves the
    same cleaned data. *)
Theorem clean_product_idempotent (ProductModel : ModelClass) (cleaned_data : gmap string PyVal) :
  let first := CatalogLinkForm.clean_product ProductModel cleaned_data in
  CatalogLinkForm.clean_product ProductModel (snd first) = first.
Proof.
  intros first. subst first.
  destruct (clean_product_keeps_inputs ProductModel cleaned_data) as [Htype Hproduct].
  destruct (clean_product_ext ProductModel cleaned_data
              (snd (CatalogLinkForm.clean_product ProductModel cleaned_data))
              Htype Hproduct) as [Hsame Hstate].
  destruct (CatalogLinkForm.clean_product ProductModel cleaned_data) as [r d'] eqn:Hfirst.
  simpl in *.
  destruct (CatalogLinkForm.clean_product ProductModel d') as [r' d''] eqn:Hsecond.
  simpl in *. subst r'. f_equal.
  destruct Hstate as [[-> _] | (link_data & -> & ->)]; [done |].
  apply insert_insert_eq.
Qed.

(** ** More on dialog form plugins *)

Section render_more.
Import DialogFormPluginBase.

Variable super_render : gmap string PyVal → Plugin → PyVal → gmap string PyVal.

(** X12.  Without a [request] entry in the context, [render] raises
    [KeyError('request')] before anything is changed: the counter of no
    request is raised and no form is built. *)
Theorem render_without_request (self : Self) (instance : Plugin) (placeholder : PyVal)
    (st : RenderState) :
  context st !! "request" = None →
  render super_render self instance placeholder st = (Raise (KeyError "request"), st).
Proof. intros Hmissing. unfold render. run_all. by rewrite Hmissing. Qed.

Lemma render_state (self : Self) (instance : Plugin) (placeholder : PyVal) (st : RenderState) :
  context st !! "request" = Some PyRequest →
  let after := snd (render super_render self instance placeholder st) in
  _plugin_order (request after) = Some (next_order (request st))
  ∧ request_attrs (request after) = request_attrs (request st)
  ∧ context after
    = super_render
        (<[form_name (FormClass self) :=
             PyForm (FormClass self)
               (form_kwargs (call_get_form_data self (request st)) (id instance)
                  (next_order (request st)))]> (context st))
        instance placeholder.
Proof.
  intros Hrequest.
  by rewrite (render_eq super_render self instance placeholder st Hrequest).
Qed.

Hypothesis super_keeps_request :
  ∀ ctx instance placeholder,
    ctx !! "request" = Some PyRequest →
    super_render ctx instance placeholder !! "request" = Some PyRequest.

(** X13.  When the plugins of a page are rendered one after the other on
    the same request, none of them publishing its form as [request] and
    the base class keeping the [request] entry of the context, the counter
    of the request ends the number of plugins above where it started (an
    absent counter starting at 0), the request is still in the context,
    and nothing else on the request has changed. *)
Theorem render_counts_plugins (plugins : list (Self * Plugin * PyVal)) (st : RenderState) :
  context st !! "request" = Some PyRequest →
  Forall (λ p, form_name (FormClass p.1.1) ≠ "request") plugins →
  let after :=
    foldl (λ st p, snd (render super_render p.1.1 p.1.2 p.2 st)) st plugins in
  _plugin_order (request after)
  = (if plugins is [] then _plugin_order (request st)
     else Some (default 0 (_plugin_order (request st)) + Z.of_nat (length plugins))%Z)
  ∧ context after !! "request" = Some PyRequest
  ∧ request_attrs (request after) = request_attrs (request st).
Proof.
  intros Hrequest Hnames. cbv zeta. revert st Hrequest.
  induction Hnames as [| [[self instance] placeholder] rest Hname Hrest IH];
    intros st Hrequest; [done |].
  simpl in Hname. cbn [foldl]. cbn [fst snd].
  destruct (render_state self instance placeholder st Hrequest) as (Horder & Hattrs & Hctx).
  set (st1 := snd (render super_render self instance placeholder st)) in *.
  assert (Hrequest1 : context st1 !! "request" = Some PyRequest).
  { rewrite Hctx. apply super_keeps_request. by rewrite lookup_insert_ne. }
  destruct (IH st1 Hrequest1) as (Hcount & Hkept & Hattrs').
  split; [| split; [done | by rewrite Hattrs']].
  rewrite Hcount. destruct rest as [| p rest'].
  - rewrite Horder. unfold next_order. simpl. done.
  - rewrite Horder. unfold next_order. simpl default. f_equal. simpl length. lia.
Qed.
End render_more.

Lemma render_without_request_witness :
  DialogFormPluginBase.render Sample.base_render Sample.customer_plugin
    Sample.customer_instance (PyStr "checkout") SampleShop.no_request
  = (Raise (KeyError "request"), SampleShop.no_request).
Proof.
  apply (render_without_request Sample.base_render Sample.customer_plugin
           Sample.customer_instance (PyStr "checkout") SampleShop.no_request eq_refl).
Defined.

Lemma base_render_keeps_request (ctx : gmap string PyVal) (instance : Plugin)
    (placeholder : PyVal) :
  ctx !! "request" = Some PyRequest →
  Sample.base_render ctx instance placeholder !! "request" = Some PyRequest.
Proof. intros Hrequest. unfold Sample.base_render. by rewrite !lookup_insert_ne. Qed.

Lemma render_counts_plugins_witness :
  _plugin_order
    (DialogFormPluginBase.request
       (foldl (λ st p, snd (DialogFormPluginBase.render Sample.base_render p.1.1 p.1.2 p.2 st))
          SampleShop.anonymous SampleShop.checkout_plugins))
  = Some 2%Z.
Proof.
  apply (render_counts_plugins Sample.base_render base_render_keeps_request
           SampleShop.checkout_plugins SampleShop.anonymous eq_refl).
  repeat constructor; discriminate.
Defined.

(** X14.  When [get_form_data] supplies no [initial], or one that is not a
    dictionary, the form is called with an [initial] that holds the plugin
    id and the plugin order and nothing else, the other arguments being as
    supplied; for a class that does not override [get_form_data] this
    [initial] is the only argument. *)
Theorem render_fresh_initial
    (super_render : gmap string PyVal → Plugin → PyVal → gmap string PyVal)
    (self : DialogFormPluginBase.Self) (instance : Plugin) (placeholder : PyVal)
    (st : DialogFormPluginBase.RenderState) :
  DialogFormPluginBase.context st !! "request" = Some PyRequest →
  (∀ d, DialogFormPluginBase.call_get_form_data self (DialogFormPluginBase.request st)
          !! "initial" ≠ Some (PyDict d)) →
  let initial : gmap string PyVal :=
    {[ "plugin_id" := PyInt (id instance);
       "plugin_order" :=
         PyInt (default 0 (_plugin_order (DialogFormPluginBase.request st)) + 1)%Z ]} in
  fst (DialogFormPluginBase.render super_render self instance placeholder st)
  = Return (super_render
              (<[form_name (DialogFormPluginBase.FormClass self) :=
                   PyForm (DialogFormPluginBase.FormClass self)
                     (<["initial" := PyDict initial]>
                        (DialogFormPluginBase.call_get_form_data self
                           (DialogFormPluginBase.request st)))]>
                 (DialogFormPluginBase.context st))
              instance placeholder)
  ∧ (own_get_form_data (DialogFormPluginBase.__class__ self) = None →
     fst (DialogFormPluginBase.render super_render self instance placeholder st)
     = Return (super_render
                 (<[form_name (DialogFormPluginBase.FormClass self) :=
                      PyForm (DialogFormPluginBase.FormClass self)
                        {[ "initial" := PyDict initial ]}]>
                    (DialogFormPluginBase.context st))
                 instance placeholder)).
Proof.
  intros Hrequest Hnodict initial.
  rewrite (render_eq super_render self instance placeholder st Hrequest). simpl.
  assert (Hinitial :
    DialogFormPluginBase.form_initial
      (DialogFormPluginBase.call_get_form_data self (DialogFormPluginBase.request st))
      (id instance) (DialogFormPluginBase.next_order (DialogFormPluginBase.request st))
    = initial).
  { unfold DialogFormPluginBase.form_initial, DialogFormPluginBase.supplied_initial,
      DialogFormPluginBase.next_order. subst initial.
    destruct (DialogFormPluginBase.call_get_form_data self (DialogFormPluginBase.request st)
                !! "initial") as [[] |] eqn:Hsupplied;
      try (by destruct (Hnodict d)).
    all: rewrite insert_empty; apply insert_insert_ne; done. }
  unfold DialogFormPluginBase.form_kwargs. rewrite Hinitial. split; [done |].
  intros Hdefault. unfold DialogFormPluginBase.call_get_form_data. rewrite Hdefault. done.
Qed.

Lemma render_fresh_initial_witness :
  fst (DialogFormPluginBase.render Sample.base_render Sample.customer_plugin
         Sample.customer_instance (PyStr "checkout") Sample.checkout)
  = Return (Sample.base_render
              (<["customer_form" :=
                   PyForm Sample.CustomerForm
                     {[ "initial" :=
                          PyDict {[ "plugin_id" := PyInt 42; "plugin_order" := PyInt 3 ]} ]}]>
                 Sample.checkout_context)
              Sample.customer_instance (PyStr "checkout")).
Proof.
  destruct (render_fresh_initial Sample.base_render Sample.customer_plugin
              Sample.customer_instance (PyStr "checkout") Sample.checkout eq_refl)
    as [_ Honly]; [discriminate |].
  apply Honly. reflexivity.
Defined.

(** X15.  For a class that inherits from [DialogFormPluginBase],
    constructing an instance succeeds exactly when [get_form_class()]
    returns a string under which a form class can be imported, and that
    class becomes [self.FormClass].  A class that can be constructed is
    one that [register_plugin] accepts; a class whose [get_form_class()]
    is [None] cannot be constructed, the import of [None] raising an
    [AttributeError]. *)
Theorem init_iff_importable {S} (modules : gmap string PyFormClass) (cls : PyClass) (s : S)
    (self : DialogFormPluginBase.Self) :
  DialogFormPluginBase.name ∈ __mro__ cls →
  (DialogFormPluginBase.__init__ modules cls s = (Return self, s)
   ↔ DialogFormPluginBase.__class__ self = cls
     ∧ ∃ path, DialogFormPluginBase.plugin_form_class cls = PyStr path
               ∧ modules !! path = Some (DialogFormPluginBase.FormClass self))
  ∧ (fst (DialogFormPluginBase.__init__ modules cls s) = Return self →
     ∀ (base : PyClass) (pool : list PyClass),
       __name__ base = DialogFormPluginBase.name →
       DialogFormPluginBase.register_plugin base cls pool = (Return tt, (pool ++ [cls])%list))
  ∧ (DialogFormPluginBase.plugin_form_class cls = PyNone →
     DialogFormPluginBase.__init__ modules cls s = (Raise (AttributeError "rsplit"), s)).
Proof.
  intros Hsub.
  assert (Hinit : DialogFormPluginBase.__init__ modules cls s
    = match DialogFormPluginBase.import_by_path modules
              (DialogFormPluginBase.plugin_form_class cls) s with
      | (Return form, s') => (Return (DialogFormPluginBase.mkSelf cls form), s')
      | (Raise e, s') => (Raise e, s')
      end).
  { unfold DialogFormPluginBase.__init__. unfold M.bind at 1.
    rewrite (call_get_form_class_inherits cls s Hsub).
    unfold M.bind, M.ret.
    by destruct (DialogFormPluginBase.import_by_path modules _ s) as [[] ?]. }
  rewrite Hinit. unfold DialogFormPluginBase.import_by_path, M.ret, M.raise.
  split; [| split].
  - split.
    + destruct (DialogFormPluginBase.plugin_form_class cls) as [| | | path | | | |]; try done.
      destruct (modules !! path) as [form |] eqn:Hform; [| done].
      intros [= <-]. simpl. eauto.
    + intros [Hcls (path & -> & Hform)]. rewrite Hform. destruct self. simpl in *. by subst.
  - intros Hreturned base pool Hbase.
    apply (register_plugin_accepted base cls pool Hbase).
    + unfold issubclass. rewrite Hbase. by apply bool_decide_eq_true_2.
    + intros Hnone. by rewrite Hnone in Hreturned.
  - by intros ->.
Qed.

Lemma init_iff_importable_witness :
  DialogFormPluginBase.__init__ Sample.form_modules Sample.CustomerFormPlugin tt
  = (Return Sample.customer_plugin, tt)
  ↔ DialogFormPluginBase.__class__ Sample.customer_plugin = Sample.CustomerFormPlugin
    ∧ ∃ path, DialogFormPluginBase.plugin_form_class Sample.CustomerFormPlugin = PyStr path
              ∧ Sample.form_modules !! path
                = Some (DialogFormPluginBase.FormClass Sample.customer_plugin).
Proof.
  apply (init_iff_importable Sample.form_modules Sample.CustomerFormPlugin tt
           Sample.customer_plugin).
  apply list_elem_of_further, list_elem_of_here.
Defined.

(** X16.  [register_plugin] keeps the pool sound: if every class of the
    pool is a subclass of [DialogFormPluginBase] with a form class, so is
    every class of the pool afterwards, and the classes registered before
    are still there, in their order, at the front. *)
Theorem register_plugin_keeps_pool_sound (cls P : PyClass) (pool : list PyClass) :
  __name__ cls = DialogFormPluginBase.name →
  let sound (c : PyClass) :=
    issubclass c cls = true ∧ DialogFormPluginBase.plugin_form_class c ≠ PyNone in
  Forall sound pool →
  Forall sound (snd (DialogFormPluginBase.register_plugin cls P pool))
  ∧ pool `prefix_of` snd (DialogFormPluginBase.register_plugin cls P pool).
Proof.
  intros Hname sound Hpool.
  destruct (issubclass P cls) eqn:Hsub.
  - destruct (is_None (DialogFormPluginBase.plugin_form_class P)) eqn:Hnone.
    + apply is_None_spec in Hnone.
      by rewrite (register_plugin_no_form_class cls P pool Hname Hsub Hnone).
    + assert (Hform : DialogFormPluginBase.plugin_form_class P ≠ PyNone).
      { intros Hform. apply is_None_spec in Hform. congruence. }
      rewrite (register_plugin_accepted cls P pool Hname Hsub Hform). simpl. split.
      * apply Forall_app. split; [done |]. by apply Forall_singleton.
      * by apply prefix_app_r.
  - by rewrite (register_plugin_not_subclass cls P pool Hsub).
Qed.

Lemma register_plugin_keeps_pool_sound_witness :
  [Sample.CustomerFormPlugin]
    `prefix_of` snd (DialogFormPluginBase.register_plugin Sample.Base
                       SampleShop.ShippingFormPlugin [Sample.CustomerFormPlugin]).
Proof.
  apply (register_plugin_keeps_pool_sound Sample.Base SampleShop.ShippingFormPlugin
           [Sample.CustomerFormPlugin] eq_refl).
  repeat constructor. discriminate.
Defined.

(** X17.  [get_render_template] looks at no template but its two
    candidates: two sets of templates that agree on the name under the
    application label and on the name under [shop] give the same result.
    On a class without [template_leaf_name] it raises [AttributeError]
    whatever templates there are. *)
Theorem get_render_template_looks_at_two {S} (APP_LABEL : string)
    (templates templates' : gmap string string) (self : DialogFormPluginBase.Self) (s : S) :
  (∀ leaf, template_leaf_name (DialogFormPluginBase.__class__ self) = Some leaf →
     templates' !! (APP_LABEL ++ "/checkout/" ++ leaf)
     = templates !! (APP_LABEL ++ "/checkout/" ++ leaf) →
     templates' !! ("shop/checkout/" ++ leaf) = templates !! ("shop/checkout/" ++ leaf) →
     DialogFormPluginBase.get_render_template APP_LABEL templates' self s
     = DialogFormPluginBase.get_render_template APP_LABEL templates self s)
  ∧ (template_leaf_name (DialogFormPluginBase.__class__ self) = None →
     DialogFormPluginBase.get_render_template APP_LABEL templates self s
     = (Raise (AttributeError "template_leaf_name"), s)).
Proof.
  unfold DialogFormPluginBase.get_render_template, DialogFormPluginBase.attr_template_leaf_name.
  split.
  - intros leaf Hleaf Hfirst Hfallback. rewrite Hleaf.
    unfold M.bind, M.ret, DialogFormPluginBase.select_template,
      DialogFormPluginBase.template_names.
    simpl. by rewrite Hfirst, Hfallback.
  - by intros ->.
Qed.
